(** * cobald: configuration mapping and payload runners

    A shallow embedding of
      - [cobald/daemon/config/mapping.py]: [ConfigurationError],
        [configure_logging], [Translator], [SectionPlugin] and
        [load_configuration];
      - [cobald/utility/concurrent/base_runner.py]: [BaseRunner] and
        [OrphanedReturn];
      - [cobald/utility/concurrent/asyncio_runner.py]: [AsyncioRunner].

    Python code runs against an ambient interpreter state (the module
    table, the logging configuration, whatever the factories and digest
    functions touch).  That state is the abstract type [World]; every
    operation that can raise or that has an effect is a computation
    [M A := World -> result A * World], and the interpreter services the
    code calls ([__import__], [getattr], calling an object, [dictConfig])
    are the fields of the class [Interpreter]. *)

From Stdlib Require Import ZArith Lia Ascii.
From stdpp Require Import base option list strings gmap pretty.

Set Default Proof Using "Type".
Set Warnings "-register-all".

(** ** Python strings

    A [str] is modelled as a [string]: a sequence of code points below 256. *)
Module PyStr.

(** [str.isspace] on one code point below 256: TAB..CR, FS..US, space,
    NEL and NBSP. *)
Definition is_space (c : ascii) : bool :=
  let n := Ascii.N_of_ascii c in
  ((9 <=? n) && (n <=? 13) || (28 <=? n) && (n <=? 32)
   || (n =? 133) || (n =? 160))%N.

Fixpoint lstrip (s : string) : string :=
  match s with
  | String c s' => if is_space c then lstrip s' else s
  | EmptyString => EmptyString
  end.

Definition rstrip (s : string) : string :=
  String.rev (lstrip (String.rev s)).

(** [s.strip()] *)
Definition strip (s : string) : string := rstrip (lstrip s).

(** [s.partition(sep)] for a one-character separator: the text before
    the first [sep], the separator itself when found, the text after. *)
Fixpoint partition (sep : ascii) (s : string) : string * string * string :=
  match s with
  | EmptyString => (EmptyString, EmptyString, EmptyString)
  | String c s' =>
      if decide (c = sep) then (EmptyString, String sep EmptyString, s')
      else let '(h, m, t) := partition sep s' in (String c h, m, t)
  end.

(** [s.split(sep)] for a one-character separator; never empty. *)
Fixpoint split (sep : ascii) (s : string) : list string :=
  match s with
  | EmptyString => [EmptyString]
  | String c s' =>
      if decide (c = sep) then EmptyString :: split sep s'
      else match split sep s' with
           | h :: t => String c h :: t
           | [] => [String c EmptyString]
           end
  end.

(** [sep.join(parts)] *)
Fixpoint join (sep : string) (parts : list string) : string :=
  match parts with
  | [] => EmptyString
  | [p] => p
  | p :: rest => p +:+ sep +:+ join sep rest
  end.

(** [needle in haystack] as a proposition. *)
Definition contains (haystack needle : string) : Prop :=
  exists pre post, haystack = pre +:+ needle +:+ post.

End PyStr.

(** ** Python dictionaries

    A [dict] keeps its keys in insertion order and the code iterates over
    it while raising and calling out, so it is an association list whose
    keys are pairwise different ([dict_wf]). *)
Section Dict.
Context {K : Type} `{EqDecision K} {V : Type}.

Definition dict_keys (d : list (K * V)) : list K := d.*1.

Definition dict_wf (d : list (K * V)) : Prop := NoDup (dict_keys d).

(** [d[k]], [None] standing for [KeyError] *)
Fixpoint dict_get (k : K) (d : list (K * V)) : option V :=
  match d with
  | [] => None
  | (k', v) :: d' => if decide (k = k') then Some v else dict_get k d'
  end.

(** [k in d] *)
Definition dict_has (k : K) (d : list (K * V)) : bool :=
  bool_decide (is_Some (dict_get k d)).

(** [d[k] = v]: overwrite in place, or append a new key *)
Fixpoint dict_set (k : K) (v : V) (d : list (K * V)) : list (K * V) :=
  match d with
  | [] => [(k, v)]
  | (k', v') :: d' =>
      if decide (k = k') then (k', v) :: d' else (k', v') :: dict_set k v d'
  end.

(** [del d[k]] *)
Fixpoint dict_del (k : K) (d : list (K * V)) : list (K * V) :=
  match d with
  | [] => []
  | (k', v') :: d' =>
      if decide (k = k') then d' else (k', v') :: dict_del k d'
  end.

(** [d.pop(k)]: the value and the dictionary without the key, [None]
    standing for [KeyError] (the dictionary is then unchanged) *)
Definition dict_pop (k : K) (d : list (K * V)) : option (V * list (K * V)) :=
  match dict_get k d with
  | Some v => Some (v, dict_del k d)
  | None => None
  end.

(** [d.pop(k, default)] *)
Definition dict_pop_default (k : K) (default : V) (d : list (K * V))
  : V * list (K * V) :=
  match dict_pop k d with
  | Some r => r
  | None => (default, d)
  end.

(** [dict(items)] and the dict comprehension: insert the items in order *)
Definition dict_of_items (items : list (K * V)) : list (K * V) :=
  fold_left (fun d kv => dict_set kv.1 kv.2 d) items [].

(** [{**d1, **d2}] *)
Definition dict_merge (d1 d2 : list (K * V)) : list (K * V) :=
  fold_left (fun d kv => dict_set kv.1 kv.2 d) d2 (dict_of_items d1).

End Dict.

(** ** Values, exceptions and the interpreter monad *)
Section Python.
Context {Obj : Type} {World : Type}.

(** A configuration element ([M] in the source: str, int, float, bool,
    dict, list), [None], or an object some factory built.  A float is
    carried by its bit pattern; nothing here computes with it. *)
Inductive value : Type :=
| VNone
| VBool (b : bool)
| VInt (z : Z)
| VFloat (bits : Z)
| VStr (s : string)
| VList (items : list value)
| VDict (items : list (string * value))
| VObj (o : Obj).

(** The exceptions the code raises or handles.  All of them derive from
    [Exception]; [ImportError] stands for its subclasses too.  Signals
    that derive from [BaseException] only ([KeyboardInterrupt],
    [SystemExit]) are not failures of the code and are not modelled. *)
Inductive exn : Type :=
| ConfigurationError (what : cause) (where_ : option string)
| ImportError (msg : string)
| KeyError (key : string)
| AttributeError (msg : string)
| TypeError (msg : string)
| ValueError (msg : string)
| AssertionError (msg : string)
| NotImplementedError
| OrphanedReturn (who : nat) (val : value)
| OtherException (name : string) (msg : string)
(** [ConfigurationError.what] is a message or the exception wrapped *)
with cause : Type :=
| WhatStr (s : string)
| WhatExn (e : exn).

Inductive result (A : Type) : Type :=
| Ok (a : A)
| Raise (e : exn).
Global Arguments Ok {A} a.
Global Arguments Raise {A} e.

Definition M (A : Type) : Type := World -> result A * World.

Definition ret {A} (a : A) : M A := fun w => (Ok a, w).
Definition raise {A} (e : exn) : M A := fun w => (Raise e, w).
Definition bind {A B} (c : M A) (k : A -> M B) : M B :=
  fun w => match c w with
           | (Ok a, w') => k a w'
           | (Raise e, w') => (Raise e, w')
           end.
(** [try: c except Exception as err: raise h(err)] *)
Definition reraise {A} (h : exn -> exn) (c : M A) : M A :=
  fun w => match c w with
           | (Ok a, w') => (Ok a, w')
           | (Raise e, w') => (Raise (h e), w')
           end.

End Python.

Global Arguments value : clear implicits.
Global Arguments exn : clear implicits.
Global Arguments cause : clear implicits.
Global Arguments result : clear implicits.
Global Arguments M : clear implicits.

Declare Scope py_scope.
Delimit Scope py_scope with py.
Notation "x <- c ;; k" := (bind c (fun x => k))
  (at level 100, c at next level, right associativity) : py_scope.
Notation "c ;;; k" := (bind c (fun _ => k))
  (at level 100, right associativity) : py_scope.

(** ** The interpreter services

    What the code asks of the Python runtime and of the standard library.
    Their behaviour is not fixed here: the theorems hold for every
    interpreter. *)
Class Interpreter (Obj World : Type) : Type := {
  (** [__import__(name)]: its return value is not used by the code *)
  py_import : string -> M Obj World unit;
  (** [sys.modules[name]], [None] standing for [KeyError] *)
  sys_modules : World -> string -> option (value Obj);
  (** [getattr(obj, name)] *)
  py_getattr : value Obj -> string -> M Obj World (value Obj);
  (** calling [obj] with positional and named arguments *)
  py_call : value Obj -> list (value Obj) -> list (string * value Obj)
            -> M Obj World (value Obj);
  (** [iter(obj)] run to its end, for an object a factory built *)
  py_iter : Obj -> M Obj World (list (value Obj));
  (** [repr(s)] of a string and [str(err)] of an exception *)
  py_repr : string -> string;
  py_str : exn Obj -> string;
  (** [logging.config.dictConfig(mapping)] *)
  dictConfig : list (string * value Obj) -> M Obj World unit
}.

(** ** [Translator] *)
Section Translator.
Context {Obj World : Type} `{!Interpreter Obj World}.
Local Abbreviation value := (value Obj).
Local Abbreviation exn := (exn Obj).
Local Abbreviation M := (M Obj World).
Local Open Scope py_scope.

(** [except AttributeError] *)
Definition is_AttributeError (e : exn) : bool :=
  match e with AttributeError _ => true | _ => false end.
(** [except ImportError] *)
Definition is_ImportError (e : exn) : bool :=
  match e with ImportError _ => true | _ => false end.

(** The loop of [load_name]:
    [for component in path[1:]: obj = getattr(obj, component)], an
    [AttributeError] becoming a [ConfigurationError] without [where]. *)
Fixpoint traverse (absolute_name : string) (obj : value)
    (components : list string) : M value :=
  match components with
  | [] => ret obj
  | component :: rest =>
      obj' <- reraise (fun err =>
                if is_AttributeError err
                then ConfigurationError
                       (WhatStr ("no such object " +:+ py_repr absolute_name
                                 +:+ ": " +:+ py_str err)) None
                else err)
              (py_getattr obj component) ;;
      traverse absolute_name obj' rest
  end.

(** [Translator.load_name].  [VStr] is a [str] or an instance of a
    subclass of it.  The other elements of a configuration have no
    [split], which is an [AttributeError].  For any other object the
    interpreter says whether it has [split] and what calling it with
    ["."] does; when that returns, [__import__] refuses the name, which is
    no [str], with a [TypeError] that is not an [ImportError]. *)
Definition load_name (absolute_name : value) : M value :=
  match absolute_name with
  | VStr name =>
      let path := PyStr.split "." name in
      fun w =>
        match py_import name w with
        | (Raise e, w') =>
            if is_ImportError e then
              match sys_modules w' (hd EmptyString path) with
              | None =>
                  (Raise (ImportError ("No module named "
                                       +:+ py_repr (hd EmptyString path))), w')
              | Some obj => traverse name obj (tl path) w'
              end
            else (Raise e, w')
        | (Ok _, w') =>
            match sys_modules w' name with
            | Some obj => (Ok obj, w')
            | None => (Raise (KeyError name), w')
            end
        end
  | VObj _ =>
      split <- py_getattr absolute_name "split" ;;
      _ <- py_call split [VStr "."] [] ;;
      raise (TypeError "__import__() argument 1 must be str")
  | _ => raise (AttributeError "object has no attribute 'split'")
  end.

(** the star in [factory( *args, ...)]: the elements of an iterable *)
Definition unpack_args (args : value) : M (list value) :=
  match args with
  | VList items => ret items
  | VStr s =>
      ret ((fun c => VStr (String c EmptyString))
             <$> Stdlib.Strings.String.list_ascii_of_string s)
  | VDict items => ret (VStr <$> dict_keys items)
  | VObj o => py_iter o
  | VNone | VBool _ | VInt _ | VFloat _ =>
      raise (TypeError "argument after * must be an iterable")
  end.

(** [Translator.construct].  [kwargs] are keywords Python can bind to
    [**kwargs] in the call [self.construct(structure, **construct_kwargs)]:
    none of them is named [self] or [mapping]. *)
Definition construct (mapping : list (string * value))
    (kwargs : list (string * value)) : M value :=
  if dict_has "__type__" kwargs || dict_has "__args__" kwargs
  then raise (AssertionError "")
  else
    let mapping := dict_merge mapping kwargs in
    match dict_pop "__type__" mapping with
    | None => raise (KeyError "__type__")
    | Some (factory_fqdn, mapping) =>
        factory <- load_name factory_fqdn ;;
        let '(args, mapping) := dict_pop_default "__args__" (VList []) mapping in
        positional <- unpack_args args ;;
        py_call factory positional mapping
    end.

(** [err.where] of a [ConfigurationError]; no other exception has it *)
Definition exn_where (err : exn) : option string :=
  match err with
  | ConfigurationError _ where_ => where_
  | _ => None
  end.

(** The two [except] clauses of [translate_hierarchy]: a
    [ConfigurationError] without [where] is raised again with this
    frame's [where], one with [where] is raised again as it is, anything
    else is wrapped. *)
Definition attribute (where_ : string) (err : exn) : exn :=
  match err with
  | ConfigurationError what None => ConfigurationError what (Some where_)
  | ConfigurationError _ (Some _) => err
  | _ => ConfigurationError (WhatExn err) (Some where_)
  end.

(** ["%s.%s" % (where, key)] and ["%s[%s]" % (where, index)] *)
Definition where_key (where_ key : string) : string :=
  where_ +:+ "." +:+ key.
Definition where_index (where_ : string) (index : nat) : string :=
  where_ +:+ "[" +:+ pretty index +:+ "]".

(** [Translator.translate_hierarchy].  The values of a mapping are
    translated in the order of its items, with no [construct_kwargs];
    the items of a list are translated from the last index down to the
    first and the results put back in the order of the list. *)
Fixpoint translate_hierarchy (structure : value) (where_ : string)
    (construct_kwargs : list (string * value)) : M value :=
  reraise (attribute where_)
    match structure with
    | VDict items =>
        translated <-
          (fix values (items : list (string * value))
             : M (list (string * value)) :=
             match items with
             | [] => ret []
             | (key, val) :: rest =>
                 val' <- translate_hierarchy val (where_key where_ key) [] ;;
                 rest' <- values rest ;;
                 ret ((key, val') :: rest')
             end) items ;;
        let structure := dict_of_items translated in
        if dict_has "__type__" structure
        then construct structure construct_kwargs
        else ret (VDict structure)
    | VList items =>
        translated <-
          (fix elements (items : list value) (index : nat)
             : M (list value) :=
             match items with
             | [] => ret []
             | item :: rest =>
                 rest' <- elements rest (S index) ;;
                 item' <- translate_hierarchy item
                            (where_index where_ index) [] ;;
                 ret (item' :: rest')
             end) items 0 ;;
        ret (VList translated)
    | _ => ret structure
    end.

(** The two loops of [translate_hierarchy] under names of their own. *)
Definition translate_values (where_ : string)
  : list (string * value) -> M (list (string * value)) :=
  fix values (items : list (string * value)) :=
    match items with
    | [] => ret []
    | (key, val) :: rest =>
        val' <- translate_hierarchy val (where_key where_ key) [] ;;
        rest' <- values rest ;;
        ret ((key, val') :: rest')
    end.

Definition translate_elements (where_ : string)
  : list value -> nat -> M (list value) :=
  fix elements (items : list value) (index : nat) :=
    match items with
    | [] => ret []
    | item :: rest =>
        rest' <- elements rest (S index) ;;
        item' <- translate_hierarchy item (where_index where_ index) [] ;;
        ret (item' :: rest')
    end.

(** [for x in xs: ...] collecting the results, left to right; and
    [enumerate(xs)] *)
Fixpoint for_each {A B} (f : A -> M B) (xs : list A) : M (list B) :=
  match xs with
  | [] => ret []
  | x :: rest => y <- f x ;; ys <- for_each f rest ;; ret (y :: ys)
  end.

Definition enumerate {A} (xs : list A) : list (nat * A) := imap pair xs.

(** Factory lookup as the specification words it.
    [attribute_path obj components w obj' w']: taking the attributes
    [components] one after the other, from [obj] in state [w], succeeds
    and ends at [obj'] in state [w'].
    [resolves name w factory w']: importing [name] succeeds and
    [factory] is the module of that name; or importing it fails with an
    [ImportError], the first component of [name] is a module that is
    imported already, and the other components lead from it to
    [factory]. *)
Inductive attribute_path
  : value -> list string -> World -> value -> World -> Prop :=
| attribute_path_nil obj w : attribute_path obj [] w obj w
| attribute_path_cons obj component rest w obj1 w1 obj' w' :
    py_getattr obj component w = (Ok obj1, w1) ->
    attribute_path obj1 rest w1 obj' w' ->
    attribute_path obj (component :: rest) w obj' w'.

Inductive resolves (name : string) (w : World) (factory : value)
    (w' : World) : Prop :=
| resolves_module :
    py_import name w = (Ok tt, w') ->
    sys_modules w' name = Some factory ->
    resolves name w factory w'
| resolves_attribute msg w1 root :
    py_import name w = (Raise (ImportError msg), w1) ->
    sys_modules w1 (hd EmptyString (PyStr.split "." name)) = Some root ->
    attribute_path root (tl (PyStr.split "." name)) w1 factory w' ->
    resolves name w factory w'.

(** The keys [construct] takes out of the mapping *)
Definition reserved (key : string) : Prop :=
  key = "__type__" \/ key = "__args__".
Global Instance reserved_dec key : Decision (reserved key).
Proof. unfold reserved. apply _. Defined.

(** [node_at structure where node where']: [node] is the element of
    [structure] that [translate_hierarchy], called on [structure] with
    [where], reaches with the diagnostic path [where']. *)
Inductive node_at : value -> string -> value -> string -> Prop :=
| node_here structure where_ :
    node_at structure where_ structure where_
| node_key items where_ key child node where' :
    (key, child) ∈ items ->
    node_at child (where_key where_ key) node where' ->
    node_at (VDict items) where_ node where'
| node_index items where_ index child node where' :
    items !! index = Some child ->
    node_at child (where_index where_ index) node where' ->
    node_at (VList items) where_ node where'.

(** [reached structure where kwargs w node where' kwargs' w0]:
    [translate_hierarchy], called on [structure] with [where] and
    [kwargs] in state [w], comes to call itself on [node] with [where']
    and [kwargs'] in state [w0]: in every mapping on the way the values
    before the one it goes into have been translated, in every list the
    items after the one it goes into. *)
Inductive reached
  : value -> string -> list (string * value) -> World
    -> value -> string -> list (string * value) -> World -> Prop :=
| reached_here structure where_ kwargs w :
    reached structure where_ kwargs w structure where_ kwargs w
| reached_key pairs1 key child pairs2 where_ kwargs w translated w1
    node where' kwargs' w0 :
    translate_values where_ pairs1 w = (Ok translated, w1) ->
    reached child (where_key where_ key) [] w1 node where' kwargs' w0 ->
    reached (VDict (pairs1 ++ (key, child) :: pairs2)) where_ kwargs w
      node where' kwargs' w0
| reached_index items1 item items2 where_ kwargs w translated w1
    node where' kwargs' w0 :
    translate_elements where_ items2 (S (length items1)) w
    = (Ok translated, w1) ->
    reached item (where_index where_ (length items1)) [] w1
      node where' kwargs' w0 ->
    reached (VList (items1 ++ item :: items2)) where_ kwargs w
      node where' kwargs' w0.

End Translator.

(** ** Configuration trees *)
Section Trees.
Context {Obj : Type}.
Local Abbreviation value := (value Obj).

(** No mapping anywhere in the tree has the key ["__type__"]. *)
Fixpoint inert (v : value) : bool :=
  match v with
  | VDict items =>
      negb (dict_has "__type__" items)
      && forallb (fun kv => let '(_, val) := kv in inert val) items
  | VList items => forallb inert items
  | _ => true
  end.

(** The keys of every mapping of the tree are pairwise different, as
    they are in a Python [dict]. *)
Fixpoint wf_value (v : value) : bool :=
  match v with
  | VDict items =>
      bool_decide (dict_wf items)
      && forallb (fun kv => let '(_, val) := kv in wf_value val) items
  | VList items => forallb wf_value items
  | _ => true
  end.

End Trees.

(** ** [configure_logging], [SectionPlugin] and [load_configuration]

    Calls to [_logger] are left out throughout. *)
Section Plugins.
Context {Obj World : Type} `{!Interpreter Obj World}.
Local Abbreviation value := (value Obj).
Local Abbreviation exn := (exn Obj).
Local Abbreviation M := (M Obj World).
Local Open Scope py_scope.

(** [configure_logging].  A mapping has [get]; the other elements of a
    configuration have not, which is an [AttributeError]. *)
Definition configure_logging (logging_mapping : value) : M unit :=
  match logging_mapping with
  | VDict mapping =>
      let disable :=
        default (VBool false) (dict_get "disable_existing_loggers" mapping) in
      dictConfig (dict_set "disable_existing_loggers" disable mapping)
  | _ => raise (AttributeError "object has no attribute 'get'")
  end.

(** A [SectionPlugin] object: its slots, and [id_], the identity under
    which it is a key of the result of [load_configuration]. *)
Record SectionPlugin : Type := {
  id_ : nat;
  section : string;
  digest : value -> M value;
  required : bool;
  before : gset string;
  after : gset string
}.

(** What [SectionPlugin.load] reads of an [EntryPoint]. *)
Record EntryPoint : Type := {
  name : string;
  extras : option (list string);
  load : M (value -> M value)
}.

(** The dictionary [options] of [SectionPlugin.load] *)
Record Options : Type := {
  opt_before : gset string;
  opt_after : gset string;
  opt_required : bool
}.

(** The body of the loop over [entry_point.extras] *)
Definition parse_option (entry_name : string) (options : Options)
    (option : string) : result Obj Options :=
  if decide (option = "required")
  then Ok {| opt_before := opt_before options;
             opt_after := opt_after options;
             opt_required := true |}
  else
    let '(key, _, val) := PyStr.partition "=" option in
    let key := PyStr.strip key in
    let val := PyStr.strip val in
    if decide (key = "before")
    then Ok {| opt_before := {[ val ]} ∪ opt_before options;
               opt_after := opt_after options;
               opt_required := opt_required options |}
    else if decide (key = "after")
    then Ok {| opt_before := opt_before options;
               opt_after := {[ val ]} ∪ opt_after options;
               opt_required := opt_required options |}
    else Raise (ValueError ("unrecognized config section option " +:+ key
                            +:+ " for SectionPlugin " +:+ entry_name)).

Fixpoint parse_options (entry_name : string) (options : Options)
    (extras : list string) : result Obj Options :=
  match extras with
  | [] => Ok options
  | option :: rest =>
      match parse_option entry_name options option with
      | Ok options' => parse_options entry_name options' rest
      | Raise e => Raise e
      end
  end.

(** [SectionPlugin.load]; [new_id] is the identity of the object made *)
Definition SectionPlugin_load (new_id : nat) (entry_point : EntryPoint)
  : M SectionPlugin :=
  digest <- load entry_point ;;
  let options := {| opt_before := ∅; opt_after := ∅; opt_required := false |} in
  match parse_options (name entry_point) options
          (default [] (extras entry_point)) with
  | Raise e => raise e
  | Ok options =>
      ret {| id_ := new_id;
             section := name entry_point;
             digest := digest;
             required := opt_required options;
             before := opt_before options;
             after := opt_after options |}
  end.

(** [config_data.keys() - {plugin.section for plugin in plugins}] *)
Definition unmatched_sections (config_data : list (string * value))
    (plugins : list SectionPlugin) : gset string :=
  list_to_set (dict_keys config_data) ∖ list_to_set (section <$> plugins).

(** The loop [for plugin in plugins] of [load_configuration] *)
Fixpoint digest_sections (config_data : list (string * value))
    (plugins : list SectionPlugin) (content : list (nat * value))
  : M (list (nat * value)) :=
  match plugins with
  | [] => ret content
  | plugin :: rest =>
      match dict_get (section plugin) config_data with
      | None =>
          if required plugin
          then raise (ConfigurationError
                        (WhatStr ("missing section "
                                  +:+ py_repr (section plugin)))
                        (Some "root"))
          else digest_sections config_data rest content
      | Some section_data =>
          plugin_content <- digest plugin section_data ;;
          digest_sections config_data rest
            match plugin_content with
            | VNone => content
            | _ => dict_set (id_ plugin) plugin_content content
            end
      end
  end.

(** [load_configuration].  [config_data] is the caller's dictionary and
    the function changes it, so it is returned next to the result: the
    outcome of the call, the dictionary as the call leaves it, and the
    interpreter state. *)
Definition load_configuration (config_data : list (string * value))
    (plugins : list SectionPlugin) (w : World)
  : result Obj (list (nat * value)) * list (string * value) * World :=
  let '(logged, config_data, w) :=
    match dict_pop "logging" config_data with
    | None => (Ok tt, config_data, w)
    | Some (logging_mapping, config_data') =>
        let '(r, w') := configure_logging logging_mapping w in
        (r, config_data', w')
    end in
  match logged with
  | Raise e => (Raise e, config_data, w)
  | Ok _ =>
      let unmatched := unmatched_sections config_data plugins in
      if decide (unmatched = ∅)
      then
        let '(r, w') := digest_sections config_data plugins [] w in
        (r, config_data, w')
      else
        (Raise (ConfigurationError
                  (WhatStr ("unknown config sections "
                            +:+ PyStr.join ", " (elements unmatched)))
                  (Some "root")),
         config_data, w)
  end.

(** Two plugins that differ in [before] and [after] at most *)
Definition same_but_constraints (p q : SectionPlugin) : Prop :=
  id_ p = id_ q /\ section p = section q /\ digest p = digest q
  /\ required p = required q.

(** [logging_applied config_data w w1]: the document has no
    ["logging"] entry and [w1] is [w], or applying the entry succeeds
    and leaves the interpreter in state [w1]. *)
Definition logging_applied (config_data : list (string * value))
    (w w1 : World) : Prop :=
  match dict_get "logging" config_data with
  | None => w1 = w
  | Some logging_mapping => configure_logging logging_mapping w = (Ok tt, w1)
  end.

(** The key [SectionPlugin.load] reads in an option, and the options it
    takes. *)
Definition option_key (option : string) : string :=
  PyStr.strip (PyStr.partition "=" option).1.1.

Definition recognized (option : string) : Prop :=
  option = "required" \/ option_key option = "before"
  \/ option_key option = "after".
Global Instance recognized_dec option : Decision (recognized option).
Proof. unfold recognized. apply _. Defined.

(** The value [SectionPlugin.load] reads in an option, and the values of
    the options of an entry point that have a given key. *)
Definition option_value (option : string) : string :=
  PyStr.strip (PyStr.partition "=" option).2.

Definition option_values (key : string) (extras : list string) : gset string :=
  list_to_set (option_value <$> filter (fun option => option_key option = key)
                                  extras).

End Plugins.

(** ** [BaseRunner] and [AsyncioRunner]

    A runner object is its [__dict__]: the attributes [__init__] assigned,
    by name.  A method is a computation over that dictionary which
    returns, raises, or blocks the calling thread for good.  The calls to
    [_logger] are left out, and so are the coroutines of [AsyncioRunner]
    ([await_all] and what it awaits), which run inside the event loop. *)
Section Runners.
Context {Obj : Type}.
Local Abbreviation value := (value Obj).
Local Abbreviation exn := (exn Obj).

(** A callable in [_payloads]: a payload as it was handed in, or
    [partial(raise_return, payload)].  Payloads are known by identity. *)
Inductive callable : Type :=
| Payload (payload : nat)
| PartialRaiseReturn (payload : nat).

(** An [asyncio.Task]: what it runs, whether it is done, and whether
    [cancel()] was called on it while it was not; how often it was
    called, and what the task was waiting for, are not recorded. *)
Record Task : Type := {
  task_of : callable;
  task_done : bool;
  task_must_cancel : bool
}.

(** An asyncio event loop, as far as [stop()] and [close()] go. *)
Record EventLoop : Type := {
  loop_running : bool;
  loop_stopping : bool;
  loop_closed : bool
}.

Inductive attr : Type :=
| ALogger
| ALock
| AEvent (flag : bool)               (* threading.Event *)
| AList (payloads : list callable)   (* list *)
| ASet (tasks : list Task)           (* set *)
| ALoop (loop : EventLoop).

Inductive outcome (A : Type) : Type :=
| Returns (a : A)
| Raises (e : exn)
| Blocks.
Global Arguments Returns {A} a.
Global Arguments Raises {A} e.
Global Arguments Blocks {A}.

Definition R (A : Type) : Type :=
  list (string * attr) -> outcome A * list (string * attr).

Definition r_ret {A} (a : A) : R A := fun self => (Returns a, self).
Definition r_raise {A} (e : exn) : R A := fun self => (Raises e, self).
Definition r_bind {A B} (c : R A) (k : A -> R B) : R B :=
  fun self => match c self with
              | (Returns a, self') => k a self'
              | (Raises e, self') => (Raises e, self')
              | (Blocks, self') => (Blocks, self')
              end.
(** [try: body finally: final] *)
Definition try_finally {A} (body : R A) (final : R unit) : R A :=
  fun self => match body self with
              | (Blocks, self') => (Blocks, self')
              | (r, self') =>
                  match final self' with
                  | (Returns _, self'') => (r, self'')
                  | (Raises e, self'') => (Raises e, self'')
                  | (Blocks, self'') => (Blocks, self'')
                  end
              end.

Local Notation "x <- c ;; k" := (r_bind c (fun x => k))
  (at level 100, c at next level, right associativity).
Local Notation "c ;;; k" := (r_bind c (fun _ => k))
  (at level 100, right associativity).

(** [self.<name>]: the classes of the runners define methods and
    [flavour] only, so any other name is looked up in [__dict__]. *)
Definition getattr (name : string) : R attr :=
  fun self => match dict_get name self with
              | Some a => (Returns a, self)
              | None =>
                  (Raises (AttributeError
                             ("object has no attribute '" +:+ name +:+ "'")),
                   self)
              end.
(** [self.<name> = a] *)
Definition setattr (name : string) (a : attr) : R unit :=
  fun self => (Returns tt, dict_set name a self).

(** [threading.Event]: [set()] and [clear()] return [None]. *)
Definition event_set (name : string) : R value :=
  a <- getattr name ;;
  match a with
  | AEvent _ => setattr name (AEvent true) ;;; r_ret VNone
  | _ => r_raise (AttributeError "object has no attribute 'set'")
  end.
Definition event_clear (name : string) : R value :=
  a <- getattr name ;;
  match a with
  | AEvent _ => setattr name (AEvent false) ;;; r_ret VNone
  | _ => r_raise (AttributeError "object has no attribute 'clear'")
  end.
(** [wait()] returns once the flag is set; no step of the calling
    thread sets it. *)
Definition event_wait (name : string) : R value :=
  a <- getattr name ;;
  match a with
  | AEvent true => r_ret (VBool true)
  | AEvent false => fun self => (Blocks, self)
  | _ => r_raise (AttributeError "object has no attribute 'wait'")
  end.

(** [with self._lock: body] in the one thread there is *)
Definition with_lock {A} (body : R A) : R A :=
  getattr "_lock" ;;; body.

(** The truth value of a configuration element *)
Definition truthy (v : value) : bool :=
  match v with
  | VNone => false
  | VBool b => b
  | VInt z => negb (z =? 0)%Z
  | VFloat bits => negb (bits =? 0)%Z && negb (bits =? 2 ^ 63)%Z
  | VStr s => negb (bool_decide (s = EmptyString))
  | VList items => negb (bool_decide (items = []))
  | VDict items => negb (bool_decide (items = []))
  | VObj _ => true
  end.

(** [assert cond, msg] *)
Definition assert (cond : bool) (msg : string) : R unit :=
  if cond then r_ret tt else r_raise (AssertionError msg).

(** [BaseRunner.__init__] *)
Definition BaseRunner_init : list (string * attr) :=
  dict_set "running" (AEvent false)
    (dict_set "_lock" ALock
       (dict_set "_payloads" (AList [])
          (dict_set "_logger" ALogger []))).

(** [BaseRunner.register_payload] *)
Definition BaseRunner_register_payload (payload : callable) : R unit :=
  a <- getattr "_payloads" ;;
  match a with
  | AList payloads => setattr "_payloads" (AList (payloads ++ [payload]))
  | _ => r_raise (AttributeError "object has no attribute 'append'")
  end.

(** [BaseRunner.run_payload] and [BaseRunner._run] *)
Definition BaseRunner_run_payload (payload : callable) : R value :=
  r_raise NotImplementedError.
Definition BaseRunner__run : R unit := r_raise NotImplementedError.

(** [BaseRunner.run]; [_run] is the method of the class of [self]. *)
Definition run (_run : R unit) : R unit :=
  try_finally
    (with_lock
       (set_result <- event_set "running" ;;
        assert (negb (truthy set_result)) "cannot re-run" ;;;
        event_set "running") ;;;
     _run)
    (event_clear "running" ;;; r_ret tt).

(** [BaseRunner.stop] *)
Definition BaseRunner_stop : R unit :=
  event_clear "running" ;;; r_ret tt.

(** [AsyncioRunner.__init__] *)
Definition AsyncioRunner_init : list (string * attr) :=
  dict_set "_tasks" (ASet [])
    (dict_set "event_loop"
       (ALoop {| loop_running := false; loop_stopping := false;
                 loop_closed := false |})
       BaseRunner_init).

(** [AsyncioRunner.register_payload] *)
Definition AsyncioRunner_register_payload (payload : nat) : R unit :=
  BaseRunner_register_payload (PartialRaiseReturn payload).

(** [task.cancel()]: nothing for a task that is done *)
Definition task_cancel (task : Task) : Task :=
  if task_done task then task
  else {| task_of := task_of task; task_done := false;
          task_must_cancel := true |}.

(** [self.event_loop.stop()] and [self.event_loop.close()] *)
Definition loop_stop : R unit :=
  a <- getattr "event_loop" ;;
  match a with
  | ALoop loop =>
      setattr "event_loop"
        (ALoop {| loop_running := loop_running loop; loop_stopping := true;
                  loop_closed := loop_closed loop |})
  | _ => r_raise (AttributeError "object has no attribute 'stop'")
  end.
Definition loop_close : R unit :=
  a <- getattr "event_loop" ;;
  match a with
  | ALoop loop =>
      if loop_running loop
      then r_raise (OtherException "RuntimeError"
                      "Cannot close a running event loop")
      else setattr "event_loop"
             (ALoop {| loop_running := false;
                       loop_stopping := loop_stopping loop;
                       loop_closed := true |})
  | _ => r_raise (AttributeError "object has no attribute 'close'")
  end.

(** [AsyncioRunner.stop] *)
Definition AsyncioRunner_stop : R unit :=
  with_lock
    (event_clear "running" ;;;
     a <- getattr "_tasks" ;;
     match a with
     | ASet tasks => setattr "_tasks" (ASet (task_cancel <$> tasks))
     | _ => r_raise (TypeError "object is not iterable")
     end) ;;;
  event_wait "_stopped" ;;;
  loop_stop ;;;
  loop_close.

(** A [BaseRunner] whose [run()] is active: [running] is set. *)
Definition running_runner : list (string * attr) :=
  dict_set "running" (AEvent true) BaseRunner_init.

(** An [AsyncioRunner] with payloads waiting, tasks tracked and the
    flag [running] as given. *)
Definition asyncio_runner (payloads : list callable) (tasks : list Task)
    (flag : bool) : list (string * attr) :=
  dict_set "_tasks" (ASet tasks)
    (dict_set "running" (AEvent flag)
       (dict_set "_payloads" (AList payloads) AsyncioRunner_init)).

End Runners.

(** ** A small interpreter to run the code on

    One package [pkg] is imported; it has one attribute, the class
    [Widget], whose constructor takes two positional integers and the
    named integer [x].  The interpreter state is the list of the sections
    handed to a digest function so far, newest first. *)
Module Demo.

Inductive obj : Type :=
| PkgModule
| WidgetClass
| Widget (a b x : Z).

Definition world : Type := list string.

Definition demo_import (name : string) : M obj world unit :=
  if decide (name = "pkg") then ret tt
  else raise (ImportError ("No module named '" +:+ name +:+ "'")).

Definition demo_modules (w : world) (name : string) : option (value obj) :=
  if decide (name = "pkg") then Some (VObj PkgModule) else None.

Definition demo_getattr (o : value obj) (attr : string)
  : M obj world (value obj) :=
  match o with
  | VObj PkgModule =>
      if decide (attr = "Widget") then ret (VObj WidgetClass)
      else raise (AttributeError
                    ("module 'pkg' has no attribute '" +:+ attr +:+ "'"))
  | _ => raise (AttributeError ("object has no attribute '" +:+ attr +:+ "'"))
  end.

Definition demo_call (f : value obj) (args : list (value obj))
    (kwargs : list (string * value obj)) : M obj world (value obj) :=
  match f, args, kwargs with
  | VObj WidgetClass, [VInt a; VInt b], [(k, VInt x)] =>
      if decide (k = "x") then ret (VObj (Widget a b x))
      else raise (TypeError "unexpected keyword argument")
  | VObj WidgetClass, _, _ => raise (TypeError "bad arguments")
  | _, _, _ => raise (TypeError "object is not callable")
  end.

#[global] Instance interpreter : Interpreter obj world := {|
  py_import := demo_import;
  sys_modules := demo_modules;
  py_getattr := demo_getattr;
  py_call := demo_call;
  py_iter := fun _ => raise (TypeError "object is not iterable");
  py_repr := fun s => "'" +:+ s +:+ "'";
  py_str := fun _ => EmptyString;
  dictConfig := fun _ => ret tt
|}.

(** A digest function that records the section it was given. *)
Definition record_section (label : string) (section_data : value obj)
  : M obj world (value obj) :=
  fun w => (Ok VNone, label :: w).

(** Two plugins: [plugin_b] is to be processed after section ["a"]. *)
Definition plugin_a : SectionPlugin :=
  {| id_ := 1; section := "a"; digest := record_section "a";
     required := false; before := ∅; after := ∅ |}.
Definition plugin_b : SectionPlugin :=
  {| id_ := 2; section := "b"; digest := record_section "b";
     required := false; before := ∅; after := {[ "a" ]} |}.

(** [root.services[2].name] names a factory that does not exist. *)
Definition services_document : value obj :=
  VDict [("services",
          VList [VDict [("name", VStr "first")];
                 VDict [("name", VStr "second")];
                 VDict [("name", VDict [("__type__", VStr "nowhere.Thing")])]])].

(** A digest function that fails, one that hands its section back to be
    kept, and plugins with them; [plugin_c] must have its section. *)
Definition failing_digest (section_data : value obj) : M obj world (value obj) :=
  fun w => (Raise (ValueError "bad section"), "failed" :: w).
Definition keeping_digest (section_data : value obj) : M obj world (value obj) :=
  fun w => (Ok section_data, "kept" :: w).
Definition plugin_c : SectionPlugin :=
  {| id_ := 3; section := "c"; digest := record_section "c";
     required := true; before := ∅; after := ∅ |}.
Definition plugin_d : SectionPlugin :=
  {| id_ := 4; section := "d"; digest := failing_digest;
     required := false; before := ∅; after := ∅ |}.
Definition plugin_e : SectionPlugin :=
  {| id_ := 5; section := "e"; digest := keeping_digest;
     required := false; before := ∅; after := ∅ |}.

(** An entry point with the options given, whose digest function loads *)
Definition entry_point (options : list string) : EntryPoint :=
  {| name := "demo"; extras := Some options;
     load := ret (record_section "demo") |}.

(** The mapping [{"__type__": "pkg.Widget", "__args__": [1, 2], "x": 3}] *)
Definition widget_document : value obj :=
  VDict [("__type__", VStr "pkg.Widget");
         ("__args__", VList [VInt 1; VInt 2]);
         ("x", VInt 3)].

End Demo.
(** ** Facts about dictionaries *)
Section DictFacts.
Context {K : Type} `{EqDecision K} {V : Type}.
Implicit Types (d items acc : list (K * V)) (k : K) (v : V).

Lemma dict_set_fresh k v d :
  k ∉ dict_keys d -> dict_set k v d = d ++ [(k, v)].
Proof.
  induction d as [|[k' v'] d IH]; simpl; [done|].
  intros Hk. apply not_elem_of_cons in Hk as [Hne Hk].
  rewrite decide_False by done. by rewrite IH.
Qed.

Lemma dict_of_items_wf_go items acc :
  NoDup (dict_keys (acc ++ items)) ->
  fold_left (fun d kv => dict_set kv.1 kv.2 d) items acc = acc ++ items.
Proof.
  revert acc. induction items as [|[k v] items IH]; intros acc Hnd; simpl.
  - by rewrite app_nil_r.
  - rewrite dict_set_fresh.
    + rewrite IH; rewrite <- app_assoc; done.
    + unfold dict_keys in Hnd. rewrite fmap_app in Hnd.
      apply NoDup_app in Hnd as (_ & Hdisj & _).
      intros Hin. apply (Hdisj k Hin). simpl. left.
Qed.

(** Building a dictionary from items with different keys keeps them. *)
Lemma dict_of_items_wf items : dict_wf items -> dict_of_items items = items.
Proof. intros Hwf. unfold dict_of_items. by rewrite dict_of_items_wf_go. Qed.

Lemma dict_get_None k d : dict_get k d = None <-> k ∉ dict_keys d.
Proof.
  induction d as [|[k' v'] d IH]; simpl.
  - split; [|done]. intros _ Hin. by apply elem_of_nil in Hin.
  - destruct (decide (k = k')) as [->|Hne].
    + split; [done|]. intros Hn. exfalso. apply Hn. left.
    + rewrite IH, not_elem_of_cons. tauto.
Qed.

Lemma dict_has_keys k d : dict_has k d = true <-> k ∈ dict_keys d.
Proof.
  unfold dict_has. rewrite bool_decide_eq_true.
  destruct (dict_get k d) as [v|] eqn:Hg.
  - split; [|by eauto]. intros _.
    destruct (decide (k ∈ dict_keys d)) as [|Hn]; [done|].
    apply dict_get_None in Hn. congruence.
  - split; [by intros [? ?]|]. intros Hin.
    apply dict_get_None in Hg. done.
Qed.

Lemma dict_keys_del k d :
  dict_keys (dict_del k d) ⊆ dict_keys d.
Proof.
  induction d as [|[k' v'] d IH]; simpl; [done|].
  destruct (decide (k = k')); simpl.
  - intros x Hx. by right.
  - intros x Hx. apply elem_of_cons in Hx as [->|Hx]; [left|right; by apply IH].
Qed.

End DictFacts.


(** ** Induction over configuration trees *)
Section TreeInduction.
Context {Obj : Type}.
Local Abbreviation value := (value Obj).

(** Induction over a tree with the hypothesis for every child. *)
Lemma value_tree_ind (P : value -> Prop) :
  P VNone -> (forall b, P (VBool b)) -> (forall z, P (VInt z)) ->
  (forall bits, P (VFloat bits)) -> (forall s, P (VStr s)) ->
  (forall items, Forall P items -> P (VList items)) ->
  (forall items, Forall (fun kv => P kv.2) items -> P (VDict items)) ->
  (forall o, P (VObj o)) ->
  forall v, P v.
Proof.
  intros HNone HBool HInt HFloat HStr HList HDict HObj.
  fix IH 1. intros [| b | z | bits | s | items | items | o].
  - exact HNone.
  - exact (HBool b).
  - exact (HInt z).
  - exact (HFloat bits).
  - exact (HStr s).
  - apply HList. induction items as [|item items IHitems].
    + constructor.
    + constructor; [exact (IH item) | exact IHitems].
  - apply HDict. induction items as [|[key val] items IHitems].
    + constructor.
    + constructor; [exact (IH val) | exact IHitems].
  - exact (HObj o).
Qed.

End TreeInduction.

(** ** Facts about [Translator] *)
Section TranslatorFacts.
Context {Obj World : Type} `{!Interpreter Obj World}.
Local Abbreviation value := (value Obj).
Local Abbreviation exn := (exn Obj).
Local Abbreviation M := (M Obj World).
Local Open Scope py_scope.
Implicit Types (structure node : value) (w : World)
  (items : list value) (pairs : list (string * value)).

(** *** The equations of [translate_hierarchy] *)

Lemma translate_hierarchy_dict pairs where_ construct_kwargs :
  translate_hierarchy (VDict pairs) where_ construct_kwargs
  = reraise (attribute where_)
      (translated <- translate_values where_ pairs ;;
       if dict_has "__type__" (dict_of_items translated)
       then construct (dict_of_items translated) construct_kwargs
       else ret (VDict (dict_of_items translated))).
Proof. reflexivity. Qed.

Lemma translate_hierarchy_list items where_ construct_kwargs :
  translate_hierarchy (VList items) where_ construct_kwargs
  = reraise (attribute where_)
      (translated <- translate_elements where_ items 0 ;;
       ret (VList translated)).
Proof. reflexivity. Qed.

Lemma translate_values_cons where_ key val pairs :
  translate_values where_ ((key, val) :: pairs)
  = (val' <- translate_hierarchy val (where_key where_ key) [] ;;
     rest' <- translate_values where_ pairs ;;
     ret ((key, val') :: rest')).
Proof. reflexivity. Qed.

Lemma translate_elements_cons where_ item items index :
  translate_elements where_ (item :: items) index
  = (rest' <- translate_elements where_ items (S index) ;;
     item' <- translate_hierarchy item (where_index where_ index) [] ;;
     ret (item' :: rest')).
Proof. reflexivity. Qed.

(** *** Inert trees *)

Lemma translate_values_inert pairs :
  Forall (fun kv => forall where_ construct_kwargs w,
            wf_value kv.2 = true -> inert kv.2 = true ->
            translate_hierarchy kv.2 where_ construct_kwargs w = (Ok kv.2, w))
         pairs ->
  forallb (fun kv => let '(_, val) := kv in wf_value val) pairs = true ->
  forallb (fun kv => let '(_, val) := kv in inert val) pairs = true ->
  forall where_ w, translate_values where_ pairs w = (Ok pairs, w).
Proof.
  induction 1 as [|[key val] pairs Hval _ IH]; intros Hwf Hin where_ w.
  - reflexivity.
  - simpl in Hwf, Hin.
    apply andb_true_iff in Hwf as [Hwf1 Hwf2].
    apply andb_true_iff in Hin as [Hin1 Hin2].
    rewrite translate_values_cons. unfold bind.
    rewrite (Hval _ _ _ Hwf1 Hin1), (IH Hwf2 Hin2). reflexivity.
Qed.

Lemma translate_elements_inert items :
  Forall (fun item => forall where_ construct_kwargs w,
            wf_value item = true -> inert item = true ->
            translate_hierarchy item where_ construct_kwargs w = (Ok item, w))
         items ->
  forallb wf_value items = true ->
  forallb inert items = true ->
  forall where_ index w,
    translate_elements where_ items index w = (Ok items, w).
Proof.
  induction 1 as [|item items Hitem _ IH]; intros Hwf Hin where_ index w.
  - reflexivity.
  - simpl in Hwf, Hin.
    apply andb_true_iff in Hwf as [Hwf1 Hwf2].
    apply andb_true_iff in Hin as [Hin1 Hin2].
    rewrite translate_elements_cons. unfold bind.
    rewrite (IH Hwf2 Hin2), (Hitem _ _ _ Hwf1 Hin1). reflexivity.
Qed.

(** C9: a tree in which no mapping has the key ["__type__"] is
    translated to a tree equal to it, scalars, the items of every list
    in their order and the entries of every mapping included; the
    interpreter state is left as it was. *)
Theorem translate_hierarchy_inert structure where_ construct_kwargs w :
  wf_value structure = true ->
  inert structure = true ->
  translate_hierarchy structure where_ construct_kwargs w = (Ok structure, w).
Proof.
  revert where_ construct_kwargs w.
  induction structure as [| b | z | bits | s | items IH | pairs IH | o]
    using value_tree_ind; intros where_ construct_kwargs w Hwf Hin;
    try reflexivity.
  - rewrite translate_hierarchy_list. unfold reraise, bind.
    simpl in Hwf, Hin.
    rewrite (translate_elements_inert items IH Hwf Hin). reflexivity.
  - rewrite translate_hierarchy_dict. unfold reraise, bind.
    simpl in Hwf, Hin.
    apply andb_true_iff in Hwf as [Hkeys Hwf].
    apply andb_true_iff in Hin as [Hno Hin].
    apply bool_decide_eq_true in Hkeys.
    rewrite (translate_values_inert pairs IH Hwf Hin).
    rewrite (dict_of_items_wf pairs Hkeys).
    apply negb_true_iff in Hno. rewrite Hno. reflexivity.
Qed.

(** *** Where an error is attributed *)

Lemma attribute_where where_ (err : exn) :
  exists what where', attribute where_ err = ConfigurationError what (Some where').
Proof. destruct err as [what [p|]| | | | | | | | |]; simpl; eauto. Qed.

Lemma attribute_fresh where_ (err : exn) :
  exn_where err = None ->
  exists what, attribute where_ err = ConfigurationError what (Some where_).
Proof. destruct err as [what [p|]| | | | | | | | |]; simpl; by eauto. Qed.

Lemma attribute_kept where_ (err : exn) p :
  exn_where err = Some p -> attribute where_ err = err.
Proof. destruct err as [what [q|]| | | | | | | | |]; simpl; by eauto. Qed.

(** An outer frame leaves what an inner frame raised as it is. *)
Lemma attribute_attribute where_ where' (err : exn) :
  attribute where_ (attribute where' err) = attribute where' err.
Proof. destruct err as [what [p|]| | | | | | | | |]; reflexivity. Qed.

Lemma translate_values_raise where_ pairs w err w' :
  translate_values where_ pairs w = (Raise err, w') ->
  exists key child w0,
    (key, child) ∈ pairs
    /\ translate_hierarchy child (where_key where_ key) [] w0 = (Raise err, w').
Proof.
  revert w. induction pairs as [|[key val] pairs IH]; intros w Hrun.
  - discriminate.
  - rewrite translate_values_cons in Hrun. unfold bind in Hrun.
    destruct (translate_hierarchy val (where_key where_ key) [] w)
      as [[val'|e] w1] eqn:Hval.
    + destruct (translate_values where_ pairs w1) as [[rest'|e] w2] eqn:Hrest.
      * discriminate.
      * injection Hrun as -> ->.
        destruct (IH _ Hrest) as (k & c & w0 & Hin & Hc).
        exists k, c, w0. split; [by right | done].
    + injection Hrun as -> ->. exists key, val, w. split; [left | done].
Qed.

Lemma translate_elements_raise where_ items index w err w' :
  translate_elements where_ items index w = (Raise err, w') ->
  exists i child w0,
    items !! i = Some child
    /\ translate_hierarchy child (where_index where_ (index + i)) [] w0
       = (Raise err, w').
Proof.
  revert index w. induction items as [|item items IH]; intros index w Hrun.
  - discriminate.
  - rewrite translate_elements_cons in Hrun. unfold bind in Hrun.
    destruct (translate_elements where_ items (S index) w)
      as [[rest'|e] w1] eqn:Hrest.
    + destruct (translate_hierarchy item (where_index where_ index) [] w1)
        as [[item'|e] w2] eqn:Hitem.
      * discriminate.
      * injection Hrun as -> ->. exists 0, item, w1.
        rewrite Nat.add_0_r. done.
    + injection Hrun as -> ->.
      destruct (IH _ _ Hrest) as (i & c & w0 & Hi & Hc).
      exists (S i), c, w0. split; [done|].
      by replace (index + S i) with (S index + i) by lia.
Qed.

End TranslatorFacts.

(** ** More facts about dictionaries *)
Section DictUpdates.
Context {K : Type} `{EqDecision K} {V : Type}.
Implicit Types (d items acc : list (K * V)) (k : K) (v : V).

Lemma dict_get_set k k' v d :
  dict_get k (dict_set k' v d)
  = if decide (k = k') then Some v else dict_get k d.
Proof.
  induction d as [|[k0 v0] d IH]; simpl.
  - done.
  - destruct (decide (k' = k0)) as [->|Hne]; simpl.
    + by destruct (decide (k = k0)).
    + rewrite IH. repeat case_decide; simplify_eq; done.
Qed.

Lemma dict_set_set k v v' d :
  dict_set k v (dict_set k v' d) = dict_set k v d.
Proof.
  induction d as [|[k0 v0] d IH]; simpl.
  - by rewrite decide_True.
  - destruct (decide (k = k0)) as [->|Hne]; simpl.
    + by rewrite decide_True.
    + rewrite decide_False by done. by rewrite IH.
Qed.

Lemma dict_keys_set k v d :
  dict_keys (dict_set k v d)
  = if decide (k ∈ dict_keys d) then dict_keys d else dict_keys d ++ [k].
Proof.
  induction d as [|[k0 v0] d IH].
  - destruct (decide (k ∈ dict_keys [])) as [Hin|_]; [|done].
    by apply elem_of_nil in Hin.
  - change (dict_keys ((k0, v0) :: d)) with (k0 :: dict_keys d).
    cbn [dict_set]. destruct (decide (k = k0)) as [->|Hne].
    + destruct (decide (k0 ∈ k0 :: dict_keys d)) as [_|Hnin]; [done|].
      exfalso. apply Hnin. left.
    + change (dict_keys ((k0, v0) :: dict_set k v d))
        with (k0 :: dict_keys (dict_set k v d)).
      rewrite IH.
      destruct (decide (k ∈ dict_keys d)) as [Hin|Hnin];
        destruct (decide (k ∈ k0 :: dict_keys d)) as [Hin'|Hnin'];
        try done.
      * exfalso. apply Hnin'. by right.
      * apply elem_of_cons in Hin' as [?|?]; done.
Qed.

Lemma dict_set_wf k v d : dict_wf d -> dict_wf (dict_set k v d).
Proof.
  unfold dict_wf. intros Hwf. rewrite dict_keys_set.
  destruct (decide (k ∈ dict_keys d)) as [Hin|Hnin]; [done|].
  apply NoDup_app. split_and!; [done| |apply NoDup_singleton].
  intros x Hx ->%list_elem_of_singleton. done.
Qed.

Lemma dict_fold_set_wf items acc :
  dict_wf acc -> dict_wf (fold_left (fun d kv => dict_set kv.1 kv.2 d) items acc).
Proof.
  revert acc. induction items as [|[k v] items IH]; intros acc Hwf; simpl.
  - done.
  - apply IH. by apply dict_set_wf.
Qed.

Lemma dict_of_items_is_wf items : dict_wf (dict_of_items items).
Proof. apply dict_fold_set_wf. apply NoDup_nil_2. Qed.

Lemma dict_of_items_idem items :
  dict_of_items (dict_of_items items) = dict_of_items items.
Proof. apply dict_of_items_wf, dict_of_items_is_wf. Qed.

Lemma dict_merge_wf d1 d2 : dict_wf (dict_merge d1 d2).
Proof. apply dict_fold_set_wf, dict_of_items_is_wf. Qed.

Lemma dict_merge_of_items d1 d2 :
  dict_merge (dict_of_items d1) d2 = dict_merge d1 d2.
Proof. unfold dict_merge. by rewrite dict_of_items_idem. Qed.

Lemma dict_get_fold_set k items acc :
  k ∉ dict_keys items ->
  dict_get k (fold_left (fun d kv => dict_set kv.1 kv.2 d) items acc)
  = dict_get k acc.
Proof.
  revert acc. induction items as [|[k0 v0] items IH]; intros acc Hk; simpl.
  - done.
  - apply not_elem_of_cons in Hk as [Hne Hk].
    rewrite IH by done. simpl. rewrite dict_get_set.
    by rewrite decide_False.
Qed.

(** Without the key in the second dictionary, the merge has the entry
    of the first. *)
Lemma dict_get_merge k d1 d2 :
  dict_has k d2 = false ->
  dict_get k (dict_merge d1 d2) = dict_get k (dict_of_items d1).
Proof.
  intros Hk. unfold dict_merge. apply dict_get_fold_set.
  intros Hin. apply dict_has_keys in Hin. congruence.
Qed.

Lemma dict_del_absent k d : k ∉ dict_keys d -> dict_del k d = d.
Proof.
  induction d as [|[k0 v0] d IH]; intros Hk; simpl; [done|].
  apply not_elem_of_cons in Hk as [Hne Hk].
  destruct (decide (k = k0)); [done|]. by rewrite IH.
Qed.

Lemma filter_other_keys k d :
  k ∉ dict_keys d -> filter (fun kv => kv.1 ≠ k) d = d.
Proof.
  induction d as [|[k0 v0] d IH]; intros Hk; [done|].
  apply not_elem_of_cons in Hk as [Hne Hk].
  rewrite filter_cons_True by (simpl; intros ->; by apply Hne).
  by rewrite IH.
Qed.

(** Deleting a key keeps the other entries, in their order. *)
Lemma dict_del_filter k d :
  dict_wf d -> dict_del k d = filter (fun kv => kv.1 ≠ k) d.
Proof.
  unfold dict_wf. induction d as [|[k0 v0] d IH]; intros Hwf.
  - done.
  - change (dict_keys ((k0, v0) :: d)) with (k0 :: dict_keys d) in Hwf.
    apply NoDup_cons in Hwf as [Hk0 Hwf]. cbn [dict_del].
    destruct (decide (k = k0)) as [->|Hne].
    + rewrite filter_cons_False by (simpl; tauto).
      by rewrite filter_other_keys.
    + rewrite filter_cons_True by (simpl; intros ->; by apply Hne).
      by rewrite IH.
Qed.

Lemma dict_del_wf k d : dict_wf d -> dict_wf (dict_del k d).
Proof.
  unfold dict_wf. induction d as [|[k0 v0] d IH]; intros Hwf.
  - done.
  - change (dict_keys ((k0, v0) :: d)) with (k0 :: dict_keys d) in Hwf.
    apply NoDup_cons in Hwf as [Hk0 Hwf]. cbn [dict_del].
    destruct (decide (k = k0)) as [->|Hne]; [done|].
    change (dict_keys ((k0, v0) :: dict_del k d))
      with (k0 :: dict_keys (dict_del k d)).
    apply NoDup_cons. split; [|by apply IH].
    intros Hin. apply Hk0. by apply (dict_keys_del k d).
Qed.

Lemma dict_get_del k k' d :
  k ≠ k' -> dict_get k (dict_del k' d) = dict_get k d.
Proof.
  intros Hne. induction d as [|[k0 v0] d IH]; simpl; [done|].
  destruct (decide (k' = k0)) as [->|Hne0]; simpl.
  - by rewrite decide_False.
  - by rewrite IH.
Qed.

End DictUpdates.

(** ** Facts about [Translator.construct] *)
Section ConstructFacts.
Context {Obj World : Type} `{!Interpreter Obj World}.
Local Abbreviation value := (value Obj).
Local Abbreviation exn := (exn Obj).
Local Abbreviation M := (M Obj World).
Local Open Scope py_scope.
Implicit Types (w : World) (pairs mapping : list (string * value)).

Lemma traverse_attribute_path name obj components w obj' w' :
  attribute_path obj components w obj' w' ->
  traverse name obj components w = (Ok obj', w').
Proof.
  induction 1 as [obj w|obj component rest w obj1 w1 obj' w' Hget _ IH].
  - reflexivity.
  - simpl. unfold bind, reraise. rewrite Hget. exact IH.
Qed.

(** [load_name] finds what the specification calls the factory. *)
Lemma load_name_resolves name w factory w' :
  resolves name w factory w' -> load_name (VStr name) w = (Ok factory, w').
Proof.
  intros [Himp Hmod|msg w1 root Himp Hroot Hpath]; unfold load_name.
  - rewrite Himp, Hmod. reflexivity.
  - rewrite Himp. simpl. rewrite Hroot.
    by apply traverse_attribute_path.
Qed.

Lemma reserved_filter mapping :
  dict_wf mapping ->
  dict_del "__args__" (dict_del "__type__" mapping)
  = filter (fun kv => ~ reserved kv.1) mapping.
Proof.
  intros Hwf.
  rewrite (dict_del_filter "__args__") by by apply dict_del_wf.
  rewrite (dict_del_filter "__type__") by done.
  rewrite list_filter_filter. apply list_filter_iff.
  intros [key val]. unfold reserved. simpl. tauto.
Qed.

(** C6: when the values of a mapping are translated and the result has
    ["__type__"] naming a factory, translating the mapping calls the
    factory found by import, or failing that by attributes of the
    imported root module, with the list under ["__args__"] (none when
    the key is absent) as positional arguments and every other entry, in
    order, as named arguments; what the call returns is the result, and
    what it raises is attributed to this mapping. *)
Theorem translate_hierarchy_constructs pairs where_ construct_kwargs w
    translated w1 name factory w2 positional :
  translate_values where_ pairs w = (Ok translated, w1) ->
  dict_has "__type__" construct_kwargs = false ->
  dict_has "__args__" construct_kwargs = false ->
  let mapping := dict_merge translated construct_kwargs in
  dict_get "__type__" mapping = Some (VStr name) ->
  resolves name w1 factory w2 ->
  default (VList []) (dict_get "__args__" mapping) = VList positional ->
  translate_hierarchy (VDict pairs) where_ construct_kwargs w
  = reraise (attribute where_)
      (py_call factory positional
         (filter (fun kv => ~ reserved kv.1) mapping)) w2.
Proof.
  intros Hvals Hk1 Hk2 mapping Hty Hres Hargs.
  assert (Hwf : dict_wf mapping) by apply dict_merge_wf.
  rewrite translate_hierarchy_dict. unfold reraise at 1, bind at 1.
  rewrite Hvals.
  assert (Hhas : dict_has "__type__" (dict_of_items translated) = true).
  { unfold dict_has. apply bool_decide_eq_true.
    rewrite <- (dict_get_merge _ _ construct_kwargs) by done.
    fold mapping. rewrite Hty. by eexists. }
  rewrite Hhas. unfold construct. rewrite Hk1, Hk2. cbn [orb].
  rewrite dict_merge_of_items. fold mapping.
  unfold dict_pop at 1. rewrite Hty. unfold bind at 1.
  rewrite (load_name_resolves _ _ _ _ Hres).
  unfold dict_pop_default, dict_pop.
  rewrite dict_get_del by done.
  rewrite <- reserved_filter by done.
  destruct (dict_get "__args__" mapping) as [args|] eqn:Hget;
    simpl in Hargs; subst.
  - reflexivity.
  - injection Hargs as <-.
    rewrite (dict_del_absent "__args__"); [reflexivity|].
    apply dict_get_None. by rewrite dict_get_del.
Qed.

End ConstructFacts.

(** ** Facts about strings *)
Section StrFacts.
Implicit Types (s t u : string).

Lemma str_app_nil_l s : EmptyString +:+ s = s.
Proof. reflexivity. Qed.

Lemma str_app_cons c s t : String c s +:+ t = String c (s +:+ t).
Proof. reflexivity. Qed.

Lemma str_app_nil_r s : s +:+ EmptyString = s.
Proof.
  induction s as [|c s IH]; [reflexivity|].
  by rewrite str_app_cons, IH.
Qed.

Lemma str_app_assoc s t u : (s +:+ t) +:+ u = s +:+ (t +:+ u).
Proof.
  induction s as [|c s IH]; [reflexivity|].
  by rewrite !str_app_cons, IH.
Qed.

Lemma contains_refl s : PyStr.contains s s.
Proof. exists EmptyString, EmptyString. by rewrite str_app_nil_r. Qed.

Lemma contains_app_l s t u : PyStr.contains t u -> PyStr.contains (s +:+ t) u.
Proof.
  intros (pre & post & ->). exists (s +:+ pre), post.
  by rewrite str_app_assoc.
Qed.

Lemma contains_app_r s t u : PyStr.contains s u -> PyStr.contains (s +:+ t) u.
Proof.
  intros (pre & post & ->). exists pre, (post +:+ t).
  by rewrite !str_app_assoc.
Qed.

(** Every part is in the joined string. *)
Lemma join_contains sep (parts : list string) part :
  part ∈ parts -> PyStr.contains (PyStr.join sep parts) part.
Proof.
  induction parts as [|p [|q rest] IH]; intros Hin.
  - by apply elem_of_nil in Hin.
  - apply list_elem_of_singleton in Hin as ->. apply contains_refl.
  - apply elem_of_cons in Hin as [->|Hin].
    + change (PyStr.join sep (p :: q :: rest))
        with (p +:+ sep +:+ PyStr.join sep (q :: rest)).
      apply contains_app_r, contains_refl.
    + change (PyStr.join sep (p :: q :: rest))
        with (p +:+ sep +:+ PyStr.join sep (q :: rest)).
      apply contains_app_l, contains_app_l. by apply IH.
Qed.

End StrFacts.

(** ** Facts about [SectionPlugin] and [load_configuration] *)
Section PluginFacts.
Context {Obj World : Type} `{!Interpreter Obj World}.
Local Abbreviation value := (value Obj).
Local Abbreviation exn := (exn Obj).
Local Abbreviation M := (M Obj World).
Local Abbreviation SectionPlugin := (@SectionPlugin Obj World).
Local Open Scope py_scope.
Implicit Types (w : World) (config_data : list (string * value))
  (plugins : list SectionPlugin).

Lemma dict_pop_del {V} (k : string) (d : list (string * V)) :
  match dict_pop k d with
  | Some (_, d') => d' = dict_del k d
  | None => d = dict_del k d
  end.
Proof.
  unfold dict_pop. destruct (dict_get k d) as [v|] eqn:Hget; [done|].
  symmetry. apply dict_del_absent. by apply dict_get_None.
Qed.

(** The dictionary [load_configuration] leaves behind *)
Lemma load_configuration_leaves config_data plugins w :
  (load_configuration config_data plugins w).1.2
  = dict_del "logging" config_data.
Proof.
  unfold load_configuration.
  pose proof (dict_pop_del "logging" config_data) as Hpop.
  destruct (dict_pop "logging" config_data) as [[lm cd']|].
  - subst cd'. destruct (configure_logging lm w) as [[[]|e] w1]; [|done].
    destruct (decide _); [|done].
    by destruct (digest_sections _ plugins [] w1).
  - rewrite <- Hpop. destruct (decide _); [|done].
    by destruct (digest_sections _ plugins [] w).
Qed.

(** Past the ["logging"] entry, with a section no plugin has, the
    outcome is the error about those sections. *)
Lemma load_configuration_unknown config_data plugins w w1 :
  logging_applied config_data w w1 ->
  unmatched_sections (dict_del "logging" config_data) plugins ≠ ∅ ->
  load_configuration config_data plugins w
  = (Raise (ConfigurationError
              (WhatStr ("unknown config sections "
                        +:+ PyStr.join ", "
                              (elements (unmatched_sections
                                           (dict_del "logging" config_data)
                                           plugins))))
              (Some "root")),
     dict_del "logging" config_data, w1).
Proof.
  unfold logging_applied, load_configuration. intros Hlog Hne.
  pose proof (dict_pop_del "logging" config_data) as Hpop.
  unfold dict_pop in *.
  destruct (dict_get "logging" config_data) as [lm|].
  - rewrite Hlog. by rewrite decide_False.
  - subst w1. rewrite <- Hpop in Hne |- *. by rewrite decide_False.
Qed.

Lemma elem_of_unmatched_sections config_data plugins key :
  key ∈ unmatched_sections config_data plugins
  <-> key ∈ dict_keys config_data /\ key ∉ section <$> plugins.
Proof.
  unfold unmatched_sections.
  rewrite elem_of_difference, !elem_of_list_to_set. done.
Qed.

(** C7, for a document whose ["logging"] entry, if it has one, is
    applied without error: when a key of the rest of the document is
    the section of no plugin, [load_configuration] raises a
    [ConfigurationError] whose [where] is ["root"] and whose message
    contains every such key; the interpreter is left as applying the
    ["logging"] entry left it, and plugins with other digest functions
    give the same outcome, so no digest function is called. *)
Theorem load_configuration_unmatched config_data plugins w w1 key :
  logging_applied config_data w w1 ->
  key ∈ dict_keys (dict_del "logging" config_data) ->
  key ∉ section <$> plugins ->
  exists message,
    load_configuration config_data plugins w
    = (Raise (ConfigurationError (WhatStr message) (Some "root")),
       dict_del "logging" config_data, w1)
    /\ (forall k, k ∈ dict_keys (dict_del "logging" config_data) ->
                 k ∉ section <$> plugins -> PyStr.contains message k)
    /\ (forall plugins',
          section <$> plugins' = section <$> plugins ->
          load_configuration config_data plugins' w
          = load_configuration config_data plugins w).
Proof.
  intros Hlog Hkey Hnone.
  assert (Hne : unmatched_sections (dict_del "logging" config_data) plugins ≠ ∅).
  { intros Hempty.
    assert (Hin : key ∈ unmatched_sections (dict_del "logging" config_data) plugins)
      by by apply elem_of_unmatched_sections.
    rewrite Hempty in Hin. by apply not_elem_of_empty in Hin. }
  eexists. split_and!.
  - by apply load_configuration_unknown.
  - intros k Hk Hno. apply contains_app_l, join_contains.
    apply elem_of_elements. by apply elem_of_unmatched_sections.
  - intros plugins' Hsame.
    assert (Hun : unmatched_sections (dict_del "logging" config_data) plugins'
                  = unmatched_sections (dict_del "logging" config_data) plugins)
      by (unfold unmatched_sections; by rewrite Hsame).
    rewrite (load_configuration_unknown _ plugins' _ _ Hlog)
      by by rewrite Hun.
    rewrite (load_configuration_unknown _ plugins _ _ Hlog) by done.
    by rewrite Hun.
Qed.

(** C10: whatever the outcome, [load_configuration] leaves the caller's
    dictionary with the entries it had, in their order, except the
    ["logging"] entry, which is gone. *)
Theorem load_configuration_pops_logging config_data plugins w :
  dict_wf config_data ->
  let kept := (load_configuration config_data plugins w).1.2 in
  kept = filter (fun kv => kv.1 ≠ "logging") config_data
  /\ dict_has "logging" kept = false
  /\ (forall key, key ≠ "logging" -> dict_get key kept = dict_get key config_data).
Proof.
  intros Hwf kept. unfold kept. rewrite load_configuration_leaves.
  split_and!.
  - by apply dict_del_filter.
  - apply not_true_is_false. rewrite dict_has_keys.
    rewrite dict_del_filter by done. unfold dict_keys.
    intros ([k v] & Hk & [Hne _]%list_elem_of_filter)%list_elem_of_fmap.
    simpl in *. congruence.
  - intros key Hne. by apply dict_get_del.
Qed.

(** *** Options of an entry point *)

Lemma parse_option_unrecognized entry_name options option :
  ~ recognized option ->
  parse_option (Obj:=Obj) entry_name options option
  = Raise (ValueError ("unrecognized config section option "
                       +:+ option_key option
                       +:+ " for SectionPlugin " +:+ entry_name)).
Proof.
  unfold recognized, option_key, parse_option. intros Hnot.
  destruct (decide (option = "required")) as [Heq|_]; [tauto|].
  destruct (PyStr.partition "=" option) as [[key sep] val]. simpl in *.
  destruct (decide (PyStr.strip key = "before")); [tauto|].
  destruct (decide (PyStr.strip key = "after")); [tauto|].
  reflexivity.
Qed.

Lemma parse_option_recognized entry_name options option :
  recognized option ->
  exists options',
    parse_option (Obj:=Obj) entry_name options option = Ok options'.
Proof.
  unfold recognized, option_key, parse_option. intros Hrec.
  destruct (decide (option = "required")) as [Heq|Hne]; [by eexists|].
  destruct (PyStr.partition "=" option) as [[key sep] val]. simpl in *.
  destruct (decide (PyStr.strip key = "before")); [by eexists|].
  destruct (decide (PyStr.strip key = "after")); [by eexists|].
  tauto.
Qed.

Lemma parse_options_unrecognized entry_name options good option rest :
  Forall recognized good ->
  ~ recognized option ->
  parse_options (Obj:=Obj) entry_name options (good ++ option :: rest)
  = Raise (ValueError ("unrecognized config section option "
                       +:+ option_key option
                       +:+ " for SectionPlugin " +:+ entry_name)).
Proof.
  intros Hgood Hnot. revert options.
  induction Hgood as [|o good Ho _ IH]; intros options; simpl.
  - by rewrite parse_option_unrecognized.
  - destruct (parse_option_recognized entry_name options o Ho) as [options' ->].
    apply IH.
Qed.

(** C8, as the code has it: when the entry point loads and one of its
    options is not ["required"] and has, before its first ["="] and
    with the white space around it removed, neither ["before"] nor
    ["after"], [SectionPlugin.load] raises [ValueError] for the first
    such option, naming that key and the entry point. *)
Theorem SectionPlugin_load_unrecognized new_id
    (entry_point : @EntryPoint Obj World)
    digest_function w w1 good option rest :
  load entry_point w = (Ok digest_function, w1) ->
  default [] (extras entry_point) = good ++ option :: rest ->
  Forall recognized good ->
  ~ recognized option ->
  SectionPlugin_load new_id entry_point w
  = (Raise (ValueError ("unrecognized config section option "
                        +:+ option_key option
                        +:+ " for SectionPlugin " +:+ name entry_point)),
     w1).
Proof.
  intros Hload Hextras Hgood Hnot.
  unfold SectionPlugin_load, bind. rewrite Hload, Hextras.
  by rewrite parse_options_unrecognized.
Qed.

(** *** The order of the digest functions *)

(** The plugins are processed in the order of the tuple: all of a
    prefix, then the rest. *)
Lemma digest_sections_app config_data plugins1 plugins2 content :
  forall w,
    digest_sections config_data (plugins1 ++ plugins2) content w
    = (content' <- digest_sections config_data plugins1 content ;;
       digest_sections config_data plugins2 content') w.
Proof.
  revert content. induction plugins1 as [|plugin plugins1 IH];
    intros content w; simpl.
  - reflexivity.
  - destruct (dict_get (section plugin) config_data) as [section_data|].
    + unfold bind.
      destruct (digest plugin section_data w) as [[plugin_content|e] w1];
        [|reflexivity].
      rewrite IH. reflexivity.
    + destruct (required plugin); [reflexivity|]. rewrite IH. reflexivity.
Qed.

(** [load_configuration] never reads [before] and [after]. *)
Lemma digest_sections_constraints config_data plugins plugins' content w :
  Forall2 same_but_constraints plugins plugins' ->
  digest_sections config_data plugins content w
  = digest_sections config_data plugins' content w.
Proof.
  intros Hsame. revert content w.
  induction Hsame as [|p q plugins plugins' (Hid & Hsec & Hdig & Hreq) _ IH];
    intros content w; simpl.
  - reflexivity.
  - rewrite Hsec, Hreq, Hdig, Hid.
    destruct (dict_get (section q) config_data) as [section_data|].
    + unfold bind.
      destruct (digest q section_data w) as [[plugin_content|e] w1];
        [|reflexivity].
      apply IH.
    + destruct (required q); [reflexivity|]. apply IH.
Qed.

Lemma load_configuration_constraints config_data plugins plugins' w :
  Forall2 same_but_constraints plugins plugins' ->
  load_configuration config_data plugins w
  = load_configuration config_data plugins' w.
Proof.
  intros Hsame.
  assert (Hsec : section <$> plugins = section <$> plugins').
  { induction Hsame as [|p q ps qs (_ & Hsec & _) _ IH]; [done|].
    by rewrite !fmap_cons, Hsec, IH. }
  unfold load_configuration, unmatched_sections.
  destruct (dict_pop "logging" config_data) as [[lm cd']|].
  - destruct (configure_logging lm w) as [[[]|e] w1]; [|done].
    rewrite Hsec. destruct (decide _); [|done].
    by rewrite (digest_sections_constraints _ _ _ _ _ Hsame).
  - rewrite Hsec. destruct (decide _); [|done].
    by rewrite (digest_sections_constraints _ _ _ _ _ Hsame).
Qed.

End PluginFacts.

(** ** The order of evaluation in [translate_hierarchy] *)
Section EvaluationOrder.
Context {Obj World : Type} `{!Interpreter Obj World}.
Local Abbreviation value := (value Obj).
Local Abbreviation M := (M Obj World).
Local Open Scope py_scope.

Lemma for_each_app {A B} (f : A -> M B) (xs ys : list A) w :
  for_each f (xs ++ ys) w
  = (xs' <- for_each f xs ;; ys' <- for_each f ys ;; ret (xs' ++ ys')) w.
Proof.
  revert w. induction xs as [|x xs IH]; intros w; simpl.
  - unfold bind, ret. by destruct (for_each f ys w) as [[ys'|e] w1].
  - unfold bind, ret. destruct (f x w) as [[y|e] w1]; [|reflexivity].
    rewrite IH. unfold bind, ret.
    destruct (for_each f xs w1) as [[xs'|e] w2]; [|reflexivity].
    by destruct (for_each f ys w2) as [[ys'|e] w3].
Qed.

(** The dict comprehension: one value after the other, in the order of
    the items. *)
Lemma translate_values_for_each where_ (pairs : list (string * value)) w :
  translate_values where_ pairs w
  = for_each (fun kv => val' <- translate_hierarchy kv.2
                                  (where_key where_ kv.1) [] ;;
                        ret (kv.1, val')) pairs w.
Proof.
  revert w. induction pairs as [|[key val] pairs IH]; intros w.
  - reflexivity.
  - rewrite translate_values_cons. simpl. unfold bind, ret.
    destruct (translate_hierarchy val (where_key where_ key) [] w)
      as [[val'|e] w1]; [|reflexivity].
    by rewrite IH.
Qed.

Lemma translate_elements_from where_ (items : list value) index w :
  translate_elements where_ items index w
  = (translated <-
       for_each (fun ix => translate_hierarchy ix.2 (where_index where_ ix.1) [])
         (reverse (imap (fun i => pair (index + i)) items)) ;;
     ret (reverse translated)) w.
Proof.
  revert index w. induction items as [|item items IH]; intros index w.
  - reflexivity.
  - rewrite translate_elements_cons, imap_cons, reverse_cons.
    unfold bind at 1 3. rewrite for_each_app, IH.
    rewrite (imap_ext (fun i => pair (S index + i))
               ((fun i => pair (index + i)) ∘ S) items)
      by (intros i x _; simpl; f_equal; lia).
    rewrite Nat.add_0_r. unfold bind, ret. simpl.
    destruct (for_each _ (reverse (imap _ items)) w) as [[rest'|e] w1];
      [|reflexivity].
    unfold bind.
    destruct (translate_hierarchy item (where_index where_ index) [] w1)
      as [[item'|e] w2]; [|reflexivity].
    unfold ret. cbn iota beta. by rewrite reverse_app.
Qed.

(** The list branch as the source writes it: the items of
    [reversed(list(enumerate(structure)))] are translated one after the
    other and the list of the results is reversed. *)
Lemma translate_elements_reversed where_ (items : list value) w :
  translate_elements where_ items 0 w
  = (translated <-
       for_each (fun ix => translate_hierarchy ix.2 (where_index where_ ix.1) [])
         (reverse (enumerate items)) ;;
     ret (reverse translated)) w.
Proof. apply translate_elements_from. Qed.

End EvaluationOrder.

(** ** Facts about the runners *)
Section RunnerFacts.
Context {Obj : Type}.
Local Abbreviation R := (@R Obj).

Implicit Types (self : list (string * attr)).

Lemma getattr_found name self a :
  dict_get name self = Some a -> getattr (Obj:=Obj) name self = (Returns a, self).
Proof. unfold getattr. by intros ->. Qed.

Lemma event_set_found name self flag :
  dict_get name self = Some (AEvent flag) ->
  event_set (Obj:=Obj) name self
  = (Returns VNone, dict_set name (AEvent true) self).
Proof.
  intros Hget. unfold event_set, r_bind. by rewrite (getattr_found _ _ _ Hget).
Qed.

Lemma event_clear_found name self flag :
  dict_get name self = Some (AEvent flag) ->
  event_clear (Obj:=Obj) name self
  = (Returns VNone, dict_set name (AEvent false) self).
Proof.
  intros Hget. unfold event_clear, r_bind. by rewrite (getattr_found _ _ _ Hget).
Qed.

Lemma r_bind_returns {A B} (c : R A) (k : A -> R B) self a self' :
  c self = (Returns a, self') -> r_bind c k self = k a self'.
Proof. unfold r_bind. by intros ->. Qed.

(** With its lock and its event, a runner passes the guard of [run],
    whatever the event says. *)
Lemma run_guard_passes self (_run : R unit) lock flag :
  dict_get "_lock" self = Some lock ->
  dict_get "running" self = Some (AEvent flag) ->
  run _run self
  = try_finally _run (r_bind (event_clear "running") (fun _ => r_ret tt))
      (dict_set "running" (AEvent true) self).
Proof.
  intros Hlock Hrun.
  assert (Hrun' : dict_get "running" (dict_set "running" (AEvent true) self)
                  = Some (AEvent true))
    by (rewrite dict_get_set; by rewrite decide_True).
  unfold run, try_finally, with_lock.
  erewrite r_bind_returns; [reflexivity|].
  rewrite (r_bind_returns _ _ _ _ _ (getattr_found _ _ _ Hlock)).
  rewrite (r_bind_returns _ _ _ _ _ (event_set_found _ _ _ Hrun)).
  cbn [truthy negb assert].
  rewrite (r_bind_returns _ _ _ tt _ eq_refl).
  by rewrite (event_set_found _ _ _ Hrun'), dict_set_set.
Qed.

(** Without [_stopped], [AsyncioRunner.stop] raises after it has asked
    the tasks to cancel. *)
Lemma AsyncioRunner_stop_without_stopped self lock flag tasks :
  dict_get "_lock" self = Some lock ->
  dict_get "running" self = Some (AEvent flag) ->
  dict_get "_tasks" self = Some (ASet tasks) ->
  dict_get "_stopped" self = None ->
  AsyncioRunner_stop (Obj:=Obj) self
  = (Raises (AttributeError "object has no attribute '_stopped'"),
     dict_set "_tasks" (ASet (task_cancel <$> tasks))
       (dict_set "running" (AEvent false) self)).
Proof.
  intros Hlock Hrun Htasks Hstopped.
  assert (Htasks' : dict_get "_tasks" (dict_set "running" (AEvent false) self)
                    = Some (ASet tasks))
    by (rewrite dict_get_set; by rewrite decide_False).
  assert (Hstopped' :
            dict_get "_stopped"
              (dict_set "_tasks" (ASet (task_cancel <$> tasks))
                 (dict_set "running" (AEvent false) self)) = None).
  { rewrite !dict_get_set. by rewrite !decide_False. }
  unfold AsyncioRunner_stop, with_lock.
  erewrite r_bind_returns; cycle 1.
  { rewrite (r_bind_returns _ _ _ _ _ (getattr_found _ _ _ Hlock)).
    rewrite (r_bind_returns _ _ _ _ _ (event_clear_found _ _ _ Hrun)).
    rewrite (r_bind_returns _ _ _ _ _ (getattr_found _ _ _ Htasks')).
    reflexivity. }
  unfold event_wait, r_bind, getattr. by rewrite Hstopped'.
Qed.

(** C2: the guard of [BaseRunner.run] rejects nothing.  On a runner
    whose [run()] is active, a second [run()] passes the assertion and
    goes on to [_run] and to the [finally] clause, clearing [running]
    under the first; and after a [run()] that returned, the next
    [run()] on the same runner returns as well. *)
Theorem BaseRunner_run_not_guarded :
  (forall _run : R unit,
      run _run running_runner
      = try_finally _run (r_bind (event_clear "running") (fun _ => r_ret tt))
          running_runner)
  /\ (run (Obj:=Obj) (r_ret tt) running_runner).1 = Returns tt
  /\ (run (Obj:=Obj) (r_ret tt) BaseRunner_init).1 = Returns tt
  /\ (run (Obj:=Obj) (r_ret tt)
        (run (Obj:=Obj) (r_ret tt) BaseRunner_init).2).1 = Returns tt.
Proof. split_and!; reflexivity. Qed.

(** C4: [AsyncioRunner.stop], on a runner with any payloads and tasks,
    running or not, clears [running], calls [cancel()] on every task
    and then raises [AttributeError]: no [_stopped] was ever assigned.
    It does not wait, and the event loop is neither stopped nor
    closed. *)
Theorem AsyncioRunner_stop_raises payloads tasks flag :
  AsyncioRunner_stop (Obj:=Obj) (asyncio_runner payloads tasks flag)
  = (Raises (AttributeError "object has no attribute '_stopped'"),
     asyncio_runner payloads (task_cancel <$> tasks) false).
Proof. reflexivity. Qed.

End RunnerFacts.

(** ** The code run on the small interpreter *)

(** Decide a closed proposition by computing. *)
Ltac by_computing := apply (bool_decide_unpack _); vm_compute; exact I.

(** The malformed mapping of [Demo.services_document] is reported under
    its own path, not under ["root.services[2]"], ["root.services"] or
    ["root"]. *)
Example translate_services_document :
  translate_hierarchy Demo.services_document "root" [] []
  = (Raise (ConfigurationError
              (WhatExn (ImportError "No module named 'nowhere'"))
              (Some "root.services[2].name")),
     []).
Proof. reflexivity. Qed.

(** Translating [Demo.widget_document] is calling [pkg.Widget(1, 2, x=3)]. *)
Example translate_widget_document :
  translate_hierarchy Demo.widget_document "root" [] []
  = py_call (VObj Demo.WidgetClass) [VInt 1; VInt 2] [("x", VInt 3)] [].
Proof. reflexivity. Qed.

Lemma translate_hierarchy_inert_witness :
  let document : value Demo.obj :=
    VDict [("port", VInt 80);
           ("hosts", VList [VStr "alpha"; VStr "beta"]);
           ("limits", VDict [("low", VFloat 0); ("high", VNone)])] in
  wf_value document = true
  /\ inert document = true
  /\ translate_hierarchy document "root" [] ([] : Demo.world)
     = (Ok document, []).
Proof.
  intros document. split; [reflexivity|]. split; [reflexivity|].
  apply translate_hierarchy_inert; reflexivity.
Defined.

Lemma translate_hierarchy_constructs_witness :
  let pairs : list (string * value Demo.obj) :=
    [("__type__", VStr "pkg.Widget");
     ("__args__", VList [VInt 1; VInt 2]);
     ("x", VInt 3)] in
  translate_values "root" pairs [] = (Ok pairs, [])
  /\ resolves "pkg.Widget" [] (VObj Demo.WidgetClass) []
  /\ translate_hierarchy (VDict pairs) "root" [] []
     = reraise (attribute "root")
         (py_call (VObj Demo.WidgetClass) [VInt 1; VInt 2]
            (filter (fun kv => ~ reserved kv.1) (dict_merge pairs []))) []
  /\ translate_hierarchy (VDict pairs) "root" [] []
     = (Ok (VObj (Demo.Widget 1 2 3)), []).
Proof.
  intros pairs.
  assert (Hres : resolves "pkg.Widget" [] (VObj Demo.WidgetClass)
                   ([] : Demo.world)).
  { eapply resolves_attribute.
    - reflexivity.
    - reflexivity.
    - eapply attribute_path_cons; [reflexivity|constructor]. }
  split; [reflexivity|]. split; [exact Hres|]. split; [|reflexivity].
  apply (translate_hierarchy_constructs pairs "root" [] [] pairs []
           "pkg.Widget" (VObj Demo.WidgetClass) [] [VInt 1; VInt 2]);
    solve [reflexivity | exact Hres].
Defined.

(** C1: with both sections present, the plugin that is to be processed
    after section ["a"] has its digest function called first, because it
    comes first in the tuple: the interpreter state lists ["b"] as the
    older call and ["a"] as the newer one. *)
Theorem load_configuration_ignores_after :
  "a" ∈ after Demo.plugin_b
  /\ load_configuration [("a", VInt 1); ("b", VInt 2)]
       [Demo.plugin_b; Demo.plugin_a] []
     = (Ok [], [("a", VInt 1); ("b", VInt 2)], ["a"; "b"]).
Proof. split; [by apply elem_of_singleton|reflexivity]. Qed.

Lemma load_configuration_unmatched_witness :
  let config_data : list (string * value Demo.obj) :=
    [("logging", VDict [("version", VInt 1)]);
     ("a", VInt 1); ("foo", VInt 2); ("bar", VNone)] in
  logging_applied config_data [] []
  /\ "foo" ∈ dict_keys (dict_del "logging" config_data)
  /\ ("foo" ∉ section <$> [Demo.plugin_a])
  /\ exists message,
      load_configuration config_data [Demo.plugin_a] []
      = (Raise (ConfigurationError (WhatStr message) (Some "root")),
         dict_del "logging" config_data, [])
      /\ (forall k, k ∈ dict_keys (dict_del "logging" config_data) ->
                   k ∉ section <$> [Demo.plugin_a] -> PyStr.contains message k)
      /\ (forall plugins',
            section <$> plugins' = section <$> [Demo.plugin_a] ->
            load_configuration config_data plugins' []
            = load_configuration config_data [Demo.plugin_a] []).
Proof.
  intros config_data.
  assert (Hlog : logging_applied config_data ([] : Demo.world) [])
    by reflexivity.
  assert (Hin : "foo" ∈ dict_keys (dict_del "logging" config_data))
    by by_computing.
  assert (Hno : "foo" ∉ section <$> [Demo.plugin_a]) by by_computing.
  split; [exact Hlog|]. split; [exact Hin|]. split; [exact Hno|].
  exact (load_configuration_unmatched config_data [Demo.plugin_a] [] []
           "foo" Hlog Hin Hno).
Defined.

(** C7 as stated fails on a document whose ["logging"] entry cannot be
    applied: the error of [configure_logging] comes out, and it is not a
    [ConfigurationError]. *)
Lemma load_configuration_logging_error :
  let config_data : list (string * value Demo.obj) :=
    [("logging", VInt 5); ("foo", VInt 2)] in
  "foo" ∈ dict_keys (dict_del "logging" config_data)
  /\ ("foo" ∉ section <$> [Demo.plugin_a])
  /\ (load_configuration config_data [Demo.plugin_a] []).1.1
     = Raise (AttributeError "object has no attribute 'get'")
  /\ forall what where_,
      (load_configuration config_data [Demo.plugin_a] []).1.1
      ≠ Raise (ConfigurationError what where_).
Proof.
  intros config_data. split; [by_computing|]. split; [by_computing|].
  split; [reflexivity|]. intros what where_ Heq. discriminate Heq.
Qed.

Lemma load_configuration_pops_logging_witness :
  let config_data : list (string * value Demo.obj) :=
    [("a", VInt 1); ("logging", VDict []); ("b", VStr "two")] in
  dict_wf config_data
  /\ (load_configuration config_data [Demo.plugin_b; Demo.plugin_a] []).1.2
     = [("a", VInt 1); ("b", VStr "two")]
  /\ let kept :=
       (load_configuration config_data [Demo.plugin_b; Demo.plugin_a] []).1.2 in
     kept = filter (fun kv => kv.1 ≠ "logging") config_data
     /\ dict_has "logging" kept = false
     /\ (forall key, key ≠ "logging" ->
                     dict_get key kept = dict_get key config_data).
Proof.
  intros config_data.
  assert (Hwf : dict_wf config_data) by by_computing.
  split; [exact Hwf|]. split; [reflexivity|].
  exact (load_configuration_pops_logging config_data
           [Demo.plugin_b; Demo.plugin_a] [] Hwf).
Defined.

Lemma SectionPlugin_load_unrecognized_witness :
  load (Demo.entry_point ["required"; " after = a "; "order=3"; "nonsense"]) []
  = (Ok (Demo.record_section "demo"), [])
  /\ Forall recognized ["required"; " after = a "]
  /\ ~ recognized "order=3"
  /\ SectionPlugin_load 7
       (Demo.entry_point ["required"; " after = a "; "order=3"; "nonsense"]) []
     = (Raise (ValueError
                 "unrecognized config section option order for SectionPlugin demo"),
        []).
Proof.
  assert (Hgood : Forall recognized ["required"; " after = a "])
    by by_computing.
  assert (Hbad : ~ recognized "order=3") by by_computing.
  split; [reflexivity|]. split; [exact Hgood|]. split; [exact Hbad|].
  exact (SectionPlugin_load_unrecognized 7
           (Demo.entry_point ["required"; " after = a "; "order=3"; "nonsense"])
           (Demo.record_section "demo") [] []
           ["required"; " after = a "] "order=3" ["nonsense"]
           eq_refl eq_refl Hgood Hbad).
Defined.

(** C8 as stated fails twice: an option nobody knows makes
    [SectionPlugin.load] raise [ValueError], which is no
    [ConfigurationError]; and the option ["before"], which has no ["="]
    and no name, is taken, with the empty name. *)
Lemma SectionPlugin_load_not_ConfigurationError :
  (SectionPlugin_load 7 (Demo.entry_point ["frobnicate"]) []).1
  = Raise (ValueError
             "unrecognized config section option frobnicate for SectionPlugin demo")
  /\ (forall what where_,
        (SectionPlugin_load 7 (Demo.entry_point ["frobnicate"]) []).1
        ≠ Raise (ConfigurationError what where_))
  /\ exists plugin,
      (SectionPlugin_load 7 (Demo.entry_point ["before"]) []).1 = Ok plugin
      /\ before plugin = {[ EmptyString ]} ∪ ∅.
Proof.
  split; [reflexivity|]. split.
  - intros what where_ Heq. discriminate Heq.
  - eexists. split; reflexivity.
Qed.

(** ** What [translate_hierarchy] returns and in which order it fails *)
Section TranslatorShape.
Context {Obj World : Type} `{!Interpreter Obj World}.
Local Abbreviation value := (value Obj).
Local Abbreviation exn := (exn Obj).
Local Abbreviation M := (M Obj World).
Local Open Scope py_scope.
Implicit Types (w : World) (items : list value)
  (pairs : list (string * value)).

(** Every branch of [translate_hierarchy] runs under its handler. *)
Lemma translate_hierarchy_handled (structure : value) where_ construct_kwargs :
  exists body : M value,
    translate_hierarchy structure where_ construct_kwargs
    = reraise (attribute where_) body.
Proof. destruct structure; eexists; reflexivity. Qed.

(** What [translate_hierarchy] raises, an enclosing frame raises again
    as it is. *)
Lemma translate_hierarchy_raise_kept (structure : value) where_
    construct_kwargs w err w' where' :
  translate_hierarchy structure where_ construct_kwargs w = (Raise err, w') ->
  attribute where' err = err.
Proof.
  destruct (translate_hierarchy_handled structure where_ construct_kwargs)
    as [body ->].
  unfold reraise. destruct (body w) as [[v|e] w1]; [discriminate|].
  intros [= <- _]. apply attribute_attribute.
Qed.

Lemma translate_elements_ok where_ items index w translated w' :
  translate_elements where_ items index w = (Ok translated, w') ->
  length translated = length items
  /\ forall i item',
      translated !! i = Some item' ->
      exists item w0 w1,
        items !! i = Some item
        /\ translate_hierarchy item (where_index where_ (index + i)) [] w0
           = (Ok item', w1).
Proof.
  revert index w translated w'.
  induction items as [|item items IH]; intros index w translated w' Hrun.
  - injection Hrun as <- _. split; [done|]. intros i item' Hi. done.
  - rewrite translate_elements_cons in Hrun. unfold bind, ret in Hrun.
    destruct (translate_elements where_ items (S index) w)
      as [[rest'|e] w1] eqn:Hrest; [|discriminate].
    destruct (translate_hierarchy item (where_index where_ index) [] w1)
      as [[item1|e] w2] eqn:Hitem; [|discriminate].
    injection Hrun as <- <-.
    destruct (IH _ _ _ _ Hrest) as [Hlen Hlook].
    split; [simpl; by rewrite Hlen|].
    intros [|i] item' Hi; simpl in Hi.
    + injection Hi as <-. exists item, w1, w2.
      by rewrite Nat.add_0_r.
    + destruct (Hlook _ _ Hi) as (it & w0 & w3 & Hit & Htr).
      exists it, w0, w3. split; [done|].
      by replace (index + S i) with (S index + i) by lia.
Qed.

Lemma translate_values_ok where_ pairs w translated w' :
  translate_values where_ pairs w = (Ok translated, w') ->
  Forall2 (fun kv kv' =>
             kv'.1 = kv.1
             /\ exists w0 w1,
                 translate_hierarchy kv.2 (where_key where_ kv.1) [] w0
                 = (Ok kv'.2, w1))
          pairs translated.
Proof.
  revert w translated w'.
  induction pairs as [|[key val] pairs IH]; intros w translated w' Hrun.
  - injection Hrun as <- _. constructor.
  - rewrite translate_values_cons in Hrun. unfold bind, ret in Hrun.
    destruct (translate_hierarchy val (where_key where_ key) [] w)
      as [[val'|e] w1] eqn:Hval; [|discriminate].
    destruct (translate_values where_ pairs w1) as [[rest'|e] w2] eqn:Hrest;
      [|discriminate].
    injection Hrun as <- <-. constructor.
    + split; [done|]. by exists w, w1.
    + by eapply IH.
Qed.

Lemma translate_values_keys where_ pairs w translated w' :
  translate_values where_ pairs w = (Ok translated, w') ->
  dict_keys translated = dict_keys pairs.
Proof.
  intros Hrun%translate_values_ok. unfold dict_keys.
  induction Hrun as [|kv kv' pairs translated [Hk _] _ IH]; [done|].
  by rewrite !fmap_cons, Hk, IH.
Qed.

Lemma elem_of_dict_keys_fold (k : string) (items acc : list (string * value)) :
  k ∈ dict_keys (fold_left (fun d kv => dict_set kv.1 kv.2 d) items acc)
  <-> k ∈ dict_keys acc \/ k ∈ dict_keys items.
Proof.
  revert acc. induction items as [|[k0 v0] items IH]; intros acc; simpl.
  - split; [by left|]. intros [?|Hin]; [done|]. by apply elem_of_nil in Hin.
  - rewrite IH. simpl. rewrite dict_keys_set.
    change (dict_keys ((k0, v0) :: items)) with (k0 :: dict_keys items).
    rewrite elem_of_cons.
    destruct (decide (k0 ∈ dict_keys acc)) as [Hin|Hnin].
    + split; [tauto|]. intros [?|[->|?]]; tauto.
    + rewrite elem_of_app, list_elem_of_singleton. tauto.
Qed.

(** The dictionary built of some items has their keys. *)
Lemma dict_has_of_items (k : string) (items : list (string * value)) :
  dict_has k (dict_of_items items) = dict_has k items.
Proof.
  apply eq_true_iff_eq. rewrite !dict_has_keys.
  unfold dict_of_items. rewrite elem_of_dict_keys_fold.
  split; [|tauto]. intros [Hin|?]; [|done]. by apply elem_of_nil in Hin.
Qed.

(** X1: when a list is translated, the result is a list of the same
    length whose element at every index is the translation of the element
    of the input at that index, under the path of that index. *)
Theorem translate_hierarchy_list_shape items where_ construct_kwargs w v w' :
  translate_hierarchy (VList items) where_ construct_kwargs w = (Ok v, w') ->
  exists translated,
    v = VList translated
    /\ length translated = length items
    /\ forall i item',
        translated !! i = Some item' ->
        exists item w0 w1,
          items !! i = Some item
          /\ translate_hierarchy item (where_index where_ i) [] w0
             = (Ok item', w1).
Proof.
  rewrite translate_hierarchy_list. unfold reraise, bind, ret.
  destruct (translate_elements where_ items 0 w) as [[translated|e] w1] eqn:Hel;
    [|discriminate].
  intros [= <- <-]. exists translated.
  destruct (translate_elements_ok _ _ _ _ _ _ Hel) as [Hlen Hlook].
  split_and!; done.
Qed.

(** X2: when a mapping that has no key ["__type__"] is translated, the
    result is a mapping with the same keys in the same order, and the
    value under every key is the translation of the value the input has
    under it, under the path of that key. *)
Theorem translate_hierarchy_dict_shape pairs where_ construct_kwargs w v w' :
  dict_wf pairs ->
  dict_has "__type__" pairs = false ->
  translate_hierarchy (VDict pairs) where_ construct_kwargs w = (Ok v, w') ->
  exists translated,
    v = VDict translated
    /\ dict_keys translated = dict_keys pairs
    /\ Forall2 (fun kv kv' =>
                 kv'.1 = kv.1
                 /\ exists w0 w1,
                     translate_hierarchy kv.2 (where_key where_ kv.1) [] w0
                     = (Ok kv'.2, w1))
               pairs translated.
Proof.
  intros Hwf Hno. rewrite translate_hierarchy_dict. unfold reraise, bind, ret.
  destruct (translate_values where_ pairs w) as [[translated|e] w1] eqn:Hvals;
    [|discriminate].
  pose proof (translate_values_keys _ _ _ _ _ Hvals) as Hkeys.
  assert (Hwf' : dict_wf translated) by (unfold dict_wf; by rewrite Hkeys).
  rewrite (dict_of_items_wf translated Hwf').
  assert (Hno' : dict_has "__type__" translated = false).
  { apply not_true_is_false. rewrite dict_has_keys, Hkeys, <- dict_has_keys.
    by rewrite Hno. }
  rewrite Hno'. intros [= <- <-]. exists translated.
  split_and!; [done|done|]. by eapply translate_values_ok.
Qed.

(** X3: [construct_kwargs] matter only for a mapping that has the key
    ["__type__"]: for any other element, a list and a mapping inside a
    list or mapping included, the translation is the same without them. *)
Theorem translate_hierarchy_kwargs_unused (structure : value) where_
    construct_kwargs w :
  (forall pairs, structure = VDict pairs -> dict_has "__type__" pairs = false) ->
  translate_hierarchy structure where_ construct_kwargs w
  = translate_hierarchy structure where_ [] w.
Proof.
  intros Hno. destruct structure as [| | | | | items | pairs |];
    try reflexivity.
  specialize (Hno pairs eq_refl).
  rewrite !translate_hierarchy_dict. unfold reraise, bind.
  destruct (translate_values where_ pairs w) as [[translated|e] w1] eqn:Hvals;
    [|reflexivity].
  rewrite dict_has_of_items.
  assert (Hno' : dict_has "__type__" translated = false).
  { apply not_true_is_false.
    rewrite dict_has_keys, (translate_values_keys _ _ _ _ _ Hvals),
      <- dict_has_keys. by rewrite Hno. }
  by rewrite Hno'.
Qed.

Lemma translate_elements_app where_ items1 items2 index w :
  translate_elements where_ (items1 ++ items2) index w
  = (rest <- translate_elements where_ items2 (index + length items1) ;;
     first <- translate_elements where_ items1 index ;;
     ret (first ++ rest)) w.
Proof.
  revert index w. induction items1 as [|item items1 IH]; intros index w.
  - simpl. rewrite Nat.add_0_r. unfold bind, ret.
    by destruct (translate_elements where_ items2 index w) as [[rest|e] w1].
  - change ((item :: items1) ++ items2) with (item :: (items1 ++ items2)).
    rewrite !translate_elements_cons. unfold bind at 1. rewrite IH.
    replace (S index + length items1) with (index + length (item :: items1))
      by (simpl; lia).
    unfold bind, ret.
    destruct (translate_elements where_ items2 _ w) as [[rest|e] w1];
      [|reflexivity].
    destruct (translate_elements where_ items1 (S index) w1)
      as [[first|e] w2]; [|reflexivity].
    by destruct (translate_hierarchy item (where_index where_ index) [] w2)
      as [[item'|e] w3].
Qed.

(** X4: a list is translated from its last item to its first.  When the
    items after one translate and that one fails, the list fails with
    that error and in that state: the items before it are never
    translated, and an error one of them would raise is never seen. *)
Theorem translate_hierarchy_list_last_failure items1 item items2 where_
    construct_kwargs w translated w1 err w2 :
  translate_elements where_ items2 (S (length items1)) w = (Ok translated, w1) ->
  translate_hierarchy item (where_index where_ (length items1)) [] w1
  = (Raise err, w2) ->
  translate_hierarchy (VList (items1 ++ item :: items2)) where_
    construct_kwargs w
  = (Raise err, w2).
Proof.
  intros Hafter Hitem.
  rewrite translate_hierarchy_list. unfold reraise, bind at 1.
  rewrite translate_elements_app. unfold bind at 1.
  rewrite translate_elements_cons. unfold bind at 1. simpl.
  rewrite Hafter. unfold bind at 1. rewrite Hitem.
  by rewrite (translate_hierarchy_raise_kept _ _ _ _ _ _ where_ Hitem).
Qed.

(** X5: the values of a mapping are translated in the order of its
    items.  When the values before one translate and that one fails,
    the mapping fails with that error and in that state: the values
    after it are never translated and nothing is constructed. *)
Theorem translate_hierarchy_dict_first_failure pairs1 key val pairs2 where_
    construct_kwargs w translated w1 err w2 :
  translate_values where_ pairs1 w = (Ok translated, w1) ->
  translate_hierarchy val (where_key where_ key) [] w1 = (Raise err, w2) ->
  translate_hierarchy (VDict (pairs1 ++ (key, val) :: pairs2)) where_
    construct_kwargs w
  = (Raise err, w2).
Proof.
  intros Hbefore Hval.
  assert (Hvals : translate_values where_ (pairs1 ++ (key, val) :: pairs2) w
                  = (Raise err, w2)).
  { clear construct_kwargs. revert w translated Hbefore.
    induction pairs1 as [|[k v] pairs1 IH]; intros w translated Hbefore.
    - injection Hbefore as _ ->. simpl. unfold bind. by rewrite Hval.
    - change (((k, v) :: pairs1) ++ (key, val) :: pairs2)
        with ((k, v) :: (pairs1 ++ (key, val) :: pairs2)).
      rewrite translate_values_cons in Hbefore |- *.
      unfold bind, ret in Hbefore |- *.
      destruct (translate_hierarchy v (where_key where_ k) [] w)
        as [[v'|e] w3]; [|discriminate].
      destruct (translate_values where_ pairs1 w3) as [[rest|e] w4] eqn:Hrest;
        [|discriminate].
      injection Hbefore as _ ->. by rewrite (IH _ _ Hrest). }
  rewrite translate_hierarchy_dict. unfold reraise, bind. rewrite Hvals.
  by rewrite (translate_hierarchy_raise_kept _ _ _ _ _ _ where_ Hval).
Qed.

End TranslatorShape.

(** ** How [construct] fails *)
Section ConstructErrors.
Context {Obj World : Type} `{!Interpreter Obj World}.
Local Abbreviation value := (value Obj).
Local Abbreviation exn := (exn Obj).
Local Abbreviation M := (M Obj World).
Local Open Scope py_scope.
Implicit Types (w : World) (pairs translated : list (string * value)).

(** With its values translated and ["__type__"] among them, a mapping
    goes to [construct], and what [construct] raises is attributed to
    the mapping. *)
Lemma translate_hierarchy_dict_construct pairs where_ construct_kwargs w
    translated w1 :
  translate_values where_ pairs w = (Ok translated, w1) ->
  dict_has "__type__" (dict_of_items translated) = true ->
  translate_hierarchy (VDict pairs) where_ construct_kwargs w
  = reraise (attribute where_)
      (construct (dict_of_items translated) construct_kwargs) w1.
Proof.
  intros Hvals Hhas. rewrite translate_hierarchy_dict.
  unfold reraise, bind. by rewrite Hvals, Hhas.
Qed.

Lemma dict_has_type_merge translated construct_kwargs ty :
  dict_has "__type__" construct_kwargs = false ->
  dict_get "__type__" (dict_merge translated construct_kwargs) = Some ty ->
  dict_has "__type__" (dict_of_items translated) = true.
Proof.
  intros Hk Hty. unfold dict_has. apply bool_decide_eq_true.
  rewrite <- (dict_get_merge _ _ construct_kwargs) by done.
  rewrite Hty. by eexists.
Qed.

(** When the lookup of the factory fails, so does the mapping, and
    nothing is called. *)
Lemma translate_hierarchy_load_name_raises pairs where_ construct_kwargs w
    translated w1 ty err w2 :
  translate_values where_ pairs w = (Ok translated, w1) ->
  dict_has "__type__" construct_kwargs = false ->
  dict_has "__args__" construct_kwargs = false ->
  dict_get "__type__" (dict_merge translated construct_kwargs) = Some ty ->
  load_name ty w1 = (Raise err, w2) ->
  translate_hierarchy (VDict pairs) where_ construct_kwargs w
  = (Raise (attribute where_ err), w2).
Proof.
  intros Hvals Hk1 Hk2 Hty Hload.
  rewrite (translate_hierarchy_dict_construct _ _ _ _ _ _ Hvals)
    by by eapply dict_has_type_merge.
  unfold reraise, construct. rewrite Hk1, Hk2. cbn [orb].
  rewrite dict_merge_of_items. unfold dict_pop. rewrite Hty.
  unfold bind. by rewrite Hload.
Qed.

Lemma traverse_missing name root found component rest w obj w1 msg w2 :
  attribute_path root found w obj w1 ->
  py_getattr obj component w1 = (Raise (AttributeError msg), w2) ->
  traverse name root (found ++ component :: rest) w
  = (Raise (ConfigurationError
              (WhatStr ("no such object " +:+ py_repr name +:+ ": "
                        +:+ py_str (AttributeError msg)))
              None),
     w2).
Proof.
  intros Hpath Hget.
  induction Hpath as [obj w|obj c cs w obj1 w1 obj' w' Hc _ IH]; simpl.
  - unfold bind, reraise. by rewrite Hget.
  - unfold bind, reraise. rewrite Hc. by apply IH.
Qed.

(** X6: a mapping whose ["__type__"] names something that cannot be
    imported, and whose first component is no imported module, fails
    with a [ConfigurationError] at the path of the mapping that wraps an
    [ImportError] naming that first component. *)
Theorem translate_hierarchy_unknown_module pairs where_ construct_kwargs w
    translated w1 name msg w2 :
  translate_values where_ pairs w = (Ok translated, w1) ->
  dict_has "__type__" construct_kwargs = false ->
  dict_has "__args__" construct_kwargs = false ->
  dict_get "__type__" (dict_merge translated construct_kwargs)
  = Some (VStr name) ->
  py_import name w1 = (Raise (ImportError msg), w2) ->
  sys_modules w2 (hd EmptyString (PyStr.split "." name)) = None ->
  translate_hierarchy (VDict pairs) where_ construct_kwargs w
  = (Raise (ConfigurationError
              (WhatExn (ImportError
                          ("No module named "
                           +:+ py_repr (hd EmptyString (PyStr.split "." name)))))
              (Some where_)),
     w2).
Proof.
  intros Hvals Hk1 Hk2 Hty Himp Hroot.
  assert (Hload : load_name (VStr name) w1
                  = (Raise (ImportError
                              ("No module named "
                               +:+ py_repr (hd EmptyString (PyStr.split "." name)))),
                     w2)).
  { unfold load_name. rewrite Himp. simpl. by rewrite Hroot. }
  by rewrite (translate_hierarchy_load_name_raises _ _ _ _ _ _ _ _ _
                Hvals Hk1 Hk2 Hty Hload).
Qed.

(** X7: a mapping whose ["__type__"] names an attribute that is missing
    somewhere along the dotted path, under a module that is imported,
    fails with a [ConfigurationError] at the path of the mapping whose
    [what] is the message with the whole dotted name and the text of the
    [AttributeError]; the attributes after the missing one are not
    looked up. *)
Theorem translate_hierarchy_missing_attribute pairs where_ construct_kwargs w
    translated w1 name msg w2 root found component rest obj w3 reason w4 :
  translate_values where_ pairs w = (Ok translated, w1) ->
  dict_has "__type__" construct_kwargs = false ->
  dict_has "__args__" construct_kwargs = false ->
  dict_get "__type__" (dict_merge translated construct_kwargs)
  = Some (VStr name) ->
  py_import name w1 = (Raise (ImportError msg), w2) ->
  sys_modules w2 (hd EmptyString (PyStr.split "." name)) = Some root ->
  tl (PyStr.split "." name) = found ++ component :: rest ->
  attribute_path root found w2 obj w3 ->
  py_getattr obj component w3 = (Raise (AttributeError reason), w4) ->
  translate_hierarchy (VDict pairs) where_ construct_kwargs w
  = (Raise (ConfigurationError
              (WhatStr ("no such object " +:+ py_repr name +:+ ": "
                        +:+ py_str (AttributeError reason)))
              (Some where_)),
     w4).
Proof.
  intros Hvals Hk1 Hk2 Hty Himp Hroot Htl Hpath Hget.
  assert (Hload : load_name (VStr name) w1
                  = (Raise (ConfigurationError
                              (WhatStr ("no such object " +:+ py_repr name
                                        +:+ ": "
                                        +:+ py_str (AttributeError reason)))
                              None),
                     w4)).
  { unfold load_name. rewrite Himp. simpl. rewrite Hroot, Htl.
    by eapply traverse_missing. }
  by rewrite (translate_hierarchy_load_name_raises _ _ _ _ _ _ _ _ _
                Hvals Hk1 Hk2 Hty Hload).
Qed.

(** X8: a mapping whose ["__type__"] is [None], a truth value, a number,
    a list or a mapping fails with a [ConfigurationError] at the path of
    the mapping that wraps the [AttributeError] of the missing [split];
    nothing is imported. *)
Theorem translate_hierarchy_type_not_str pairs where_ construct_kwargs w
    translated w1 ty :
  translate_values where_ pairs w = (Ok translated, w1) ->
  dict_has "__type__" construct_kwargs = false ->
  dict_has "__args__" construct_kwargs = false ->
  dict_get "__type__" (dict_merge translated construct_kwargs) = Some ty ->
  match ty with VStr _ | VObj _ => False | _ => True end ->
  translate_hierarchy (VDict pairs) where_ construct_kwargs w
  = (Raise (ConfigurationError
              (WhatExn (AttributeError "object has no attribute 'split'"))
              (Some where_)),
     w1).
Proof.
  intros Hvals Hk1 Hk2 Hty Hplain.
  assert (Hload : load_name ty w1
                  = (Raise (AttributeError "object has no attribute 'split'"),
                     w1)).
  { destruct ty; solve [reflexivity | destruct Hplain]. }
  by rewrite (translate_hierarchy_load_name_raises _ _ _ _ _ _ _ _ _
                Hvals Hk1 Hk2 Hty Hload).
Qed.

(** X9: among keywords the call of [construct] can bind (none named
    [mapping]), one named ["__type__"] or ["__args__"] makes [construct]
    fail its assertion, so a mapping that has ["__type__"] fails with a
    [ConfigurationError] at its path that wraps the [AssertionError];
    nothing is imported or called. *)
Theorem translate_hierarchy_reserved_kwargs pairs where_ construct_kwargs w
    translated w1 :
  translate_values where_ pairs w = (Ok translated, w1) ->
  dict_has "__type__" pairs = true ->
  dict_has "mapping" construct_kwargs = false ->
  dict_has "__type__" construct_kwargs || dict_has "__args__" construct_kwargs
  = true ->
  translate_hierarchy (VDict pairs) where_ construct_kwargs w
  = (Raise (ConfigurationError (WhatExn (AssertionError "")) (Some where_)),
     w1).
Proof.
  intros Hvals Hhas _ Hk.
  assert (Hhas' : dict_has "__type__" (dict_of_items translated) = true).
  { rewrite dict_has_of_items. apply dict_has_keys.
    rewrite (translate_values_keys _ _ _ _ _ Hvals).
    by apply dict_has_keys. }
  rewrite (translate_hierarchy_dict_construct _ _ _ _ _ _ Hvals Hhas').
  unfold reraise, construct. by rewrite Hk.
Qed.

End ConstructErrors.

(** ** The options [SectionPlugin.load] takes *)
Section PluginOptions.
Context {Obj World : Type} `{!Interpreter Obj World}.
Local Abbreviation value := (value Obj).
Local Abbreviation M := (M Obj World).
Local Open Scope py_scope.
Implicit Types (extras : list string) (options : Options).

Lemma elem_of_option_values key extras x :
  x ∈ option_values key extras
  <-> exists option, option ∈ extras /\ option_key option = key
                     /\ option_value option = x.
Proof.
  unfold option_values.
  rewrite elem_of_list_to_set, list_elem_of_fmap.
  split.
  - intros (o & -> & [Hk Hin]%list_elem_of_filter). by exists o.
  - intros (o & Hin & Hk & <-). exists o. split; [done|].
    by apply list_elem_of_filter.
Qed.

Lemma option_values_cons key option extras :
  option_values key (option :: extras)
  = (if decide (option_key option = key) then {[ option_value option ]} else ∅)
    ∪ option_values key extras.
Proof.
  unfold option_values. rewrite filter_cons.
  destruct (decide (option_key option = key)).
  - by rewrite fmap_cons, list_to_set_cons.
  - by rewrite (left_id_L ∅ (∪)).
Qed.

(** What [parse_option] does with an option it takes *)
Lemma parse_option_recognized_eq entry_name options option :
  recognized option ->
  parse_option (Obj:=Obj) entry_name options option
  = Ok {| opt_before :=
            (if decide (option_key option = "before")
             then {[ option_value option ]} else ∅) ∪ opt_before options;
          opt_after :=
            (if decide (option_key option = "after")
             then {[ option_value option ]} else ∅) ∪ opt_after options;
          opt_required :=
            opt_required options || bool_decide (option = "required") |}.
Proof.
  intros Hrec. destruct options as [b a r]. unfold parse_option.
  destruct (decide (option = "required")) as [->|Hne].
  - rewrite bool_decide_eq_true_2 by done. rewrite orb_true_r.
    assert (Hb : option_key "required" ≠ "before") by (vm_compute; discriminate).
    assert (Ha : option_key "required" ≠ "after") by (vm_compute; discriminate).
    rewrite (decide_False _ _ Hb), (decide_False _ _ Ha).
    by rewrite !(left_id_L ∅ (∪)).
  - rewrite bool_decide_eq_false_2 by done. rewrite orb_false_r.
    unfold recognized in Hrec. unfold option_key, option_value in *.
    destruct (PyStr.partition "=" option) as [[key sep] val].
    cbn [fst snd] in *.
    destruct (decide (PyStr.strip key = "before")) as [Hb|Hnb].
    + rewrite Hb. rewrite (decide_False (P:=("before" = "after")))
        by discriminate.
      by rewrite (left_id_L ∅ (∪)).
    + destruct (decide (PyStr.strip key = "after")) as [Ha|Hna].
      * by rewrite (left_id_L ∅ (∪)).
      * tauto.
Qed.

Lemma parse_options_recognized_eq entry_name options extras :
  Forall recognized extras ->
  parse_options (Obj:=Obj) entry_name options extras
  = Ok {| opt_before := option_values "before" extras ∪ opt_before options;
          opt_after := option_values "after" extras ∪ opt_after options;
          opt_required :=
            opt_required options || bool_decide ("required" ∈ extras) |}.
Proof.
  intros Hrec. revert options.
  induction Hrec as [|option extras Ho _ IH]; intros options; simpl.
  - destruct options as [b a r]. simpl.
    rewrite orb_false_r. unfold option_values. simpl.
    by rewrite !(left_id_L ∅ (∪)).
  - rewrite (parse_option_recognized_eq _ _ _ Ho), IH.
    cbn [opt_before opt_after opt_required].
    rewrite !option_values_cons. f_equal. f_equal.
    + by rewrite (assoc_L (∪)), (comm_L (∪) (option_values _ _)).
    + by rewrite (assoc_L (∪)), (comm_L (∪) (option_values _ _)).
    + rewrite <- orb_assoc. f_equal.
      destruct (decide (option = "required")) as [->|Hne].
      * rewrite (bool_decide_eq_true_2 ("required" = "required")) by done.
        rewrite (bool_decide_eq_true_2 ("required" ∈ "required" :: extras))
          by left.
        done.
      * rewrite (bool_decide_eq_false_2 (option = "required")) by done.
        cbn [orb]. apply bool_decide_ext. rewrite elem_of_cons.
        split; [tauto|]. intros [?|?]; [congruence|done].
Qed.

(** X10: when the entry point loads and takes every option, the plugin
    made has the name of the entry point as its section and what was
    loaded as its digest function; it is required when ["required"] is
    among the options, and [before] and [after] are the values, without
    the white space around them, of the options with that key. *)
Theorem SectionPlugin_load_recognized new_id
    (entry_point : @EntryPoint Obj World) digest_function w w1 :
  load entry_point w = (Ok digest_function, w1) ->
  Forall recognized (default [] (extras entry_point)) ->
  SectionPlugin_load new_id entry_point w
  = (Ok {| id_ := new_id;
           section := name entry_point;
           digest := digest_function;
           required :=
             bool_decide ("required" ∈ default [] (extras entry_point));
           before := option_values "before" (default [] (extras entry_point));
           after := option_values "after" (default [] (extras entry_point)) |},
     w1).
Proof.
  intros Hload Hrec. unfold SectionPlugin_load, bind. rewrite Hload.
  rewrite (parse_options_recognized_eq _ _ _ Hrec). simpl.
  by rewrite !(right_id_L ∅ (∪)).
Qed.

(** X11: two entry points with the same name and the same [load], whose
    lists of options have the same members, all taken, give the same
    plugin: neither the order of the options nor a repetition matters. *)
Theorem SectionPlugin_load_same_options new_id
    (entry_point entry_point' : @EntryPoint Obj World) given given' w :
  name entry_point = name entry_point' ->
  load entry_point = load entry_point' ->
  extras entry_point = Some given ->
  extras entry_point' = Some given' ->
  (forall option, option ∈ given <-> option ∈ given') ->
  Forall recognized given ->
  SectionPlugin_load new_id entry_point w
  = SectionPlugin_load new_id entry_point' w.
Proof.
  intros Hname Hload Hex Hex' Hsame Hrec.
  assert (Hrec' : Forall recognized given').
  { rewrite Forall_forall in Hrec |- *. intros o Ho. by apply Hrec, Hsame. }
  unfold SectionPlugin_load, bind. rewrite <- Hload, <- Hname, Hex, Hex'.
  destruct (load entry_point w) as [[d|e] w1]; [|reflexivity].
  cbn [default from_option].
  rewrite (parse_options_recognized_eq _ _ _ Hrec),
    (parse_options_recognized_eq _ _ _ Hrec').
  assert (Hvalues : forall key,
             option_values key given = option_values key given').
  { intros key. apply set_eq. intros x. rewrite !elem_of_option_values.
    split; intros (o & Ho & Hk & Hv); exists o; split_and!; try done;
      by apply Hsame. }
  rewrite !Hvalues. rewrite (bool_decide_ext _ _ (Hsame "required")).
  reflexivity.
Qed.

(** X12: the option ["before=<text>"], whatever the text, is taken and
    adds the text without the white space around it to [before]; when
    the text has a ["="] itself, all of it counts. *)
Theorem parse_option_before entry_name options text :
  parse_option (Obj:=Obj) entry_name options ("before=" +:+ text)
  = Ok {| opt_before := {[ PyStr.strip text ]} ∪ opt_before options;
          opt_after := opt_after options;
          opt_required := opt_required options |}.
Proof.
  unfold parse_option.
  destruct (decide ("before=" +:+ text = "required")) as [Heq|_];
    [discriminate Heq|].
  reflexivity.
Qed.

End PluginOptions.

(** ** [load_configuration] section by section *)
Section Sections.
Context {Obj World : Type} `{!Interpreter Obj World}.
Local Abbreviation value := (value Obj).
Local Abbreviation exn := (exn Obj).
Local Abbreviation M := (M Obj World).
Local Abbreviation SectionPlugin := (@SectionPlugin Obj World).
Local Open Scope py_scope.
Implicit Types (w : World) (config_data : list (string * value))
  (plugins : list SectionPlugin) (content : list (nat * value)).

(** [load_configuration] by the ["logging"] entry of the document *)
Lemma load_configuration_by_logging config_data plugins w :
  load_configuration config_data plugins w
  = let rest := fun w0 =>
      let kept := dict_del "logging" config_data in
      if decide (unmatched_sections kept plugins = ∅)
      then let '(r, w') := digest_sections kept plugins [] w0 in (r, kept, w')
      else (Raise (ConfigurationError
                     (WhatStr ("unknown config sections "
                               +:+ PyStr.join ", "
                                     (elements (unmatched_sections kept plugins))))
                     (Some "root")),
            kept, w0) in
    match dict_get "logging" config_data with
    | None => rest w
    | Some logging_mapping =>
        match configure_logging logging_mapping w with
        | (Ok _, w0) => rest w0
        | (Raise e, w0) => (Raise e, dict_del "logging" config_data, w0)
        end
    end.
Proof.
  unfold load_configuration.
  pose proof (dict_pop_del "logging" config_data) as Hpop.
  unfold dict_pop in *.
  destruct (dict_get "logging" config_data) as [lm|].
  - by destruct (configure_logging lm w) as [[[]|e] w0].
  - by rewrite <- Hpop.
Qed.

(** With the ["logging"] entry applied and every key the section of a
    plugin, the outcome is that of the loop over the plugins. *)
Lemma load_configuration_digests config_data plugins w w0 :
  logging_applied config_data w w0 ->
  unmatched_sections (dict_del "logging" config_data) plugins = ∅ ->
  load_configuration config_data plugins w
  = (let '(r, w') :=
       digest_sections (dict_del "logging" config_data) plugins [] w0 in
     (r, dict_del "logging" config_data, w')).
Proof.
  unfold logging_applied. intros Hlog Hnone.
  rewrite load_configuration_by_logging. cbn zeta.
  destruct (dict_get "logging" config_data) as [lm|].
  - rewrite Hlog. by rewrite decide_True.
  - subst w0. by rewrite decide_True.
Qed.

(** X13: a required plugin whose section is missing makes
    [load_configuration] raise a [ConfigurationError] at ["root"] naming
    the section, but only when the loop reaches it: the digest functions
    of the plugins before it have run by then, and the interpreter is in
    the state they left; those of the plugins after it never run. *)
Theorem load_configuration_missing_section config_data plugins1 plugin plugins2
    w w0 content w1 :
  logging_applied config_data w w0 ->
  unmatched_sections (dict_del "logging" config_data)
    (plugins1 ++ plugin :: plugins2) = ∅ ->
  digest_sections (dict_del "logging" config_data) plugins1 [] w0
  = (Ok content, w1) ->
  required plugin = true ->
  dict_get (section plugin) (dict_del "logging" config_data) = None ->
  load_configuration config_data (plugins1 ++ plugin :: plugins2) w
  = (Raise (ConfigurationError
              (WhatStr ("missing section " +:+ py_repr (section plugin)))
              (Some "root")),
     dict_del "logging" config_data, w1).
Proof.
  intros Hlog Hnone Hfirst Hreq Habsent.
  rewrite (load_configuration_digests _ _ _ _ Hlog Hnone).
  rewrite digest_sections_app. unfold bind. rewrite Hfirst.
  simpl. by rewrite Habsent, Hreq.
Qed.

(** X14: a plugin that is not required and whose section is not in the
    document counts for nothing: the outcome, the document left and the
    interpreter state are those of the call without that plugin. *)
Theorem load_configuration_absent_optional config_data plugins1 plugin plugins2 w :
  required plugin = false ->
  section plugin ∉ dict_keys (dict_del "logging" config_data) ->
  load_configuration config_data (plugins1 ++ plugin :: plugins2) w
  = load_configuration config_data (plugins1 ++ plugins2) w.
Proof.
  intros Hreq Habsent.
  assert (Hun : unmatched_sections (dict_del "logging" config_data)
                  (plugins1 ++ plugin :: plugins2)
                = unmatched_sections (dict_del "logging" config_data)
                    (plugins1 ++ plugins2)).
  { apply set_eq. intros key. rewrite !elem_of_unmatched_sections.
    rewrite !fmap_app, fmap_cons, !elem_of_app, elem_of_cons.
    split; intros [Hin Hno]; (split; [done|]).
    - tauto.
    - intros [?|[->|?]]; tauto. }
  assert (Hloop : forall content w0,
             digest_sections (dict_del "logging" config_data)
               (plugins1 ++ plugin :: plugins2) content w0
             = digest_sections (dict_del "logging" config_data)
                 (plugins1 ++ plugins2) content w0).
  { intros content w0. rewrite !digest_sections_app. unfold bind.
    destruct (digest_sections _ plugins1 content w0) as [[content1|e] w1];
      [|reflexivity].
    simpl. apply dict_get_None in Habsent. by rewrite Habsent, Hreq. }
  rewrite !load_configuration_by_logging. cbn zeta. rewrite Hun.
  destruct (dict_get "logging" config_data) as [lm|].
  - destruct (configure_logging lm w) as [[[]|e] w0]; [|reflexivity].
    by rewrite Hloop.
  - by rewrite Hloop.
Qed.

(** X15: what a digest function raises comes out of
    [load_configuration] as it is, not as a [ConfigurationError]; the
    digest functions of the plugins before it have run, those of the
    plugins after it never do. *)
Theorem load_configuration_digest_raises config_data plugins1 plugin plugins2
    w w0 content w1 section_data err w2 :
  logging_applied config_data w w0 ->
  unmatched_sections (dict_del "logging" config_data)
    (plugins1 ++ plugin :: plugins2) = ∅ ->
  digest_sections (dict_del "logging" config_data) plugins1 [] w0
  = (Ok content, w1) ->
  dict_get (section plugin) (dict_del "logging" config_data)
  = Some section_data ->
  digest plugin section_data w1 = (Raise err, w2) ->
  load_configuration config_data (plugins1 ++ plugin :: plugins2) w
  = (Raise err, dict_del "logging" config_data, w2).
Proof.
  intros Hlog Hnone Hfirst Hsec Hdig.
  rewrite (load_configuration_digests _ _ _ _ Hlog Hnone).
  rewrite digest_sections_app. unfold bind at 1. rewrite Hfirst.
  simpl. rewrite Hsec. unfold bind. by rewrite Hdig.
Qed.

Lemma dict_set_Forall {K V} `{EqDecision K} (P : K * V -> Prop) k v
    (d : list (K * V)) :
  P (k, v) -> Forall P d -> Forall P (dict_set k v d).
Proof.
  intros Hnew Hall. induction Hall as [|[k0 v0] d Hk0 Hd IH]; simpl.
  - by constructor.
  - destruct (decide (k = k0)) as [->|Hne]; by constructor.
Qed.

Lemma digest_sections_entries (P : nat * value -> Prop) config_data plugins
    content w content' w' :
  (forall plugin section_data v,
      plugin ∈ plugins ->
      dict_get (section plugin) config_data = Some section_data ->
      v <> VNone ->
      P (id_ plugin, v)) ->
  Forall P content ->
  digest_sections config_data plugins content w = (Ok content', w') ->
  Forall P content'.
Proof.
  revert content w.
  induction plugins as [|plugin plugins IH]; intros content w Hnew Hall Hrun.
  - by injection Hrun as <- _.
  - simpl in Hrun.
    assert (Hnew' : forall p sd v, p ∈ plugins ->
               dict_get (section p) config_data = Some sd -> v <> VNone ->
               P (id_ p, v))
      by (intros p sd v Hp; apply Hnew; by right).
    destruct (dict_get (section plugin) config_data) as [section_data|] eqn:Hsec.
    + unfold bind in Hrun.
      destruct (digest plugin section_data w) as [[plugin_content|e] w1];
        [|discriminate].
      eapply (IH _ _ Hnew'); [|exact Hrun].
      assert (Hv : plugin_content <> VNone ->
                   Forall P (dict_set (id_ plugin) plugin_content content)).
      { intros Hv. apply dict_set_Forall; [|done].
        eapply Hnew; [left|exact Hsec|exact Hv]. }
      destruct plugin_content; try (by apply Hv); done.
    + destruct (required plugin); [discriminate|].
      by eapply (IH _ _ Hnew').
Qed.

Lemma digest_sections_wf config_data plugins content w content' w' :
  dict_wf content ->
  digest_sections config_data plugins content w = (Ok content', w') ->
  dict_wf content'.
Proof.
  revert content w.
  induction plugins as [|plugin plugins IH]; intros content w Hwf Hrun.
  - by injection Hrun as <- _.
  - simpl in Hrun.
    destruct (dict_get (section plugin) config_data) as [section_data|].
    + unfold bind in Hrun.
      destruct (digest plugin section_data w) as [[plugin_content|e] w1];
        [|discriminate].
      eapply IH; [|exact Hrun].
      destruct plugin_content; try (by apply dict_set_wf); done.
    + destruct (required plugin); [discriminate|]. by eapply IH.
Qed.

(** X16: in what [load_configuration] returns, no plugin is kept twice,
    no value kept is [None], and every plugin kept is one of the tuple
    whose section is in the document. *)
Theorem load_configuration_content config_data plugins w content kept w' :
  load_configuration config_data plugins w = (Ok content, kept, w') ->
  dict_wf content
  /\ Forall (fun entry =>
               entry.2 <> VNone
               /\ exists plugin,
                   plugin ∈ plugins /\ id_ plugin = entry.1
                   /\ is_Some (dict_get (section plugin) kept))
            content.
Proof.
  rewrite load_configuration_by_logging. cbn zeta. intros Hrun.
  assert (Hloop : exists w0,
             kept = dict_del "logging" config_data
             /\ digest_sections kept plugins [] w0 = (Ok content, w')).
  { destruct (dict_get "logging" config_data) as [lm|].
    - destruct (configure_logging lm w) as [[[]|e] w0]; [|discriminate].
      destruct (decide _); [|discriminate].
      destruct (digest_sections _ plugins [] w0) as [r w1] eqn:Hd.
      injection Hrun as -> <- ->. by exists w0.
    - destruct (decide _); [|discriminate].
      destruct (digest_sections _ plugins [] w) as [r w1] eqn:Hd.
      injection Hrun as -> <- ->. by exists w. }
  destruct Hloop as (w0 & _ & Hloop). split.
  - eapply digest_sections_wf; [|exact Hloop]. apply NoDup_nil_2.
  - eapply digest_sections_entries; [|constructor|exact Hloop].
    intros plugin section_data v Hin Hsec Hv. simpl.
    split; [done|]. exists plugin. split_and!; [done|done|by eexists].
Qed.

Lemma dict_set_same {K V} `{EqDecision K} (k : K) (v : V) (d : list (K * V)) :
  dict_get k d = Some v -> dict_set k v d = d.
Proof.
  induction d as [|[k0 v0] d IH]; simpl; [done|].
  destruct (decide (k = k0)) as [->|Hne].
  - by intros [= ->].
  - intros Hget. by rewrite IH.
Qed.

(** X17: [configure_logging] hands a mapping that says
    ["disable_existing_loggers"] to [dictConfig] as it is, whatever it
    says, and a mapping that does not with that key added last and set
    to [False]. *)
Theorem configure_logging_default (mapping : list (string * value)) w :
  configure_logging (VDict mapping) w
  = dictConfig
      (if dict_has "disable_existing_loggers" mapping then mapping
       else mapping ++ [("disable_existing_loggers", VBool false)]) w.
Proof.
  unfold configure_logging, dict_has.
  destruct (dict_get "disable_existing_loggers" mapping) as [v|] eqn:Hget.
  - rewrite bool_decide_eq_true_2 by by eexists. simpl.
    by rewrite (dict_set_same _ _ _ Hget).
  - rewrite bool_decide_eq_false_2 by by intros [? ?]. simpl.
    rewrite dict_set_fresh; [done|]. by apply dict_get_None.
Qed.

(** X18: when applying the ["logging"] entry fails, [load_configuration]
    fails with that error, whatever the other sections and the plugins:
    no section is checked and no digest function runs, and the entry is
    gone from the document all the same. *)
Theorem load_configuration_logging_raises config_data plugins w
    logging_mapping err w0 :
  dict_get "logging" config_data = Some logging_mapping ->
  configure_logging logging_mapping w = (Raise err, w0) ->
  load_configuration config_data plugins w
  = (Raise err, dict_del "logging" config_data, w0).
Proof.
  intros Hget Hlog. rewrite load_configuration_by_logging. cbn zeta.
  by rewrite Hget, Hlog.
Qed.

End Sections.

(** ** The runners through their methods *)
Section RunnerMethods.
Context {Obj : Type}.
Local Abbreviation R := (@R Obj).
Implicit Types (self : list (string * attr)).

(** X19: past its guard, [BaseRunner.run] is [_run] followed by the
    [finally] clause: when [_run] returns or raises, [run] returns or
    raises the same, and the runner is left as [_run] left it with
    [running] cleared. *)
Theorem BaseRunner_run_outcome self (_run : R unit) lock flag r self' flag' :
  dict_get "_lock" self = Some lock ->
  dict_get "running" self = Some (AEvent flag) ->
  _run (dict_set "running" (AEvent true) self) = (r, self') ->
  r <> Blocks ->
  dict_get "running" self' = Some (AEvent flag') ->
  run _run self = (r, dict_set "running" (AEvent false) self').
Proof.
  intros Hlock Hrun Hbody Hr Hrun'.
  rewrite (run_guard_passes _ _ _ _ Hlock Hrun).
  unfold try_finally. rewrite Hbody.
  rewrite (r_bind_returns _ _ _ _ _ (event_clear_found _ _ _ Hrun')).
  unfold r_ret. by destruct r.
Qed.

Lemma BaseRunner_register_payload_found self queued payload :
  dict_get "_payloads" self = Some (AList queued) ->
  BaseRunner_register_payload (Obj:=Obj) payload self
  = (Returns tt, dict_set "_payloads" (AList (queued ++ [payload])) self).
Proof.
  intros Hget. unfold BaseRunner_register_payload.
  by rewrite (r_bind_returns _ _ _ _ _ (getattr_found _ _ _ Hget)).
Qed.

(** X20: payloads registered with [AsyncioRunner.register_payload] one
    after the other, none of which raises, wait in [_payloads] behind
    those that waited already, in the order they were registered, each
    as [partial(raise_return, payload)]; nothing else of the runner
    changes. *)
Theorem AsyncioRunner_register_payloads self queued (payloads : list nat) :
  dict_get "_payloads" self = Some (AList queued) ->
  fold_left (fun self payload =>
               (AsyncioRunner_register_payload (Obj:=Obj) payload self).2)
    payloads self
  = dict_set "_payloads" (AList (queued ++ (PartialRaiseReturn <$> payloads)))
      self
  /\ forall done payload rest,
      payloads = done ++ payload :: rest ->
      (AsyncioRunner_register_payload (Obj:=Obj) payload
         (fold_left (fun self payload =>
                       (AsyncioRunner_register_payload (Obj:=Obj) payload self).2)
            done self)).1
      = Returns tt.
Proof.
  intros Hget.
  assert (Hfold : forall ps queued self,
             dict_get "_payloads" self = Some (AList queued) ->
             fold_left (fun self payload =>
                          (AsyncioRunner_register_payload (Obj:=Obj) payload
                             self).2) ps self
             = dict_set "_payloads"
                 (AList (queued ++ (PartialRaiseReturn <$> ps))) self).
  { clear. induction ps as [|p ps IH]; intros queued self Hget.
    - simpl. rewrite app_nil_r. symmetry. by apply dict_set_same.
    - simpl. unfold AsyncioRunner_register_payload at 2.
      rewrite (BaseRunner_register_payload_found _ _ _ Hget). simpl.
      rewrite (IH (queued ++ [PartialRaiseReturn p])).
      + by rewrite dict_set_set, <- app_assoc.
      + rewrite dict_get_set. by rewrite decide_True. }
  split; [by apply Hfold|].
  intros done payload rest ->. rewrite (Hfold done queued self Hget).
  unfold AsyncioRunner_register_payload.
  erewrite BaseRunner_register_payload_found; [done|].
  rewrite dict_get_set. by rewrite decide_True.
Qed.

(** X21: [AsyncioRunner.stop] leaves the tasks that are done as they
    are and calls [cancel()] on every other, and it takes none away; a
    second call of [stop] raises the same [AttributeError]. *)
Theorem AsyncioRunner_stop_again self lock flag tasks :
  dict_get "_lock" self = Some lock ->
  dict_get "running" self = Some (AEvent flag) ->
  dict_get "_tasks" self = Some (ASet tasks) ->
  dict_get "_stopped" self = None ->
  let stopped := (AsyncioRunner_stop (Obj:=Obj) self).2 in
  (exists tasks',
      dict_get "_tasks" stopped = Some (ASet tasks')
      /\ length tasks' = length tasks
      /\ forall i task,
          tasks !! i = Some task ->
          tasks' !! i
          = Some (if task_done task then task
                  else {| task_of := task_of task; task_done := false;
                          task_must_cancel := true |}))
  /\ (AsyncioRunner_stop (Obj:=Obj) stopped).1
     = Raises (AttributeError "object has no attribute '_stopped'").
Proof.
  intros Hlock Hrun Htasks Hstopped stopped. unfold stopped.
  rewrite (AsyncioRunner_stop_without_stopped _ _ _ _
             Hlock Hrun Htasks Hstopped).
  cbn [snd].
  set (s1 := dict_set "_tasks" (ASet (task_cancel <$> tasks))
               (dict_set "running" (AEvent false) self)).
  assert (Htasks1 : dict_get "_tasks" s1 = Some (ASet (task_cancel <$> tasks))).
  { unfold s1. rewrite dict_get_set. by rewrite decide_True. }
  assert (Hrun1 : dict_get "running" s1 = Some (AEvent false)).
  { unfold s1. rewrite !dict_get_set.
    rewrite decide_False by done. by rewrite decide_True. }
  assert (Hlock1 : dict_get "_lock" s1 = Some lock).
  { unfold s1. rewrite !dict_get_set. by rewrite !decide_False. }
  assert (Hstopped1 : dict_get "_stopped" s1 = None).
  { unfold s1. rewrite !dict_get_set. by rewrite !decide_False. }
  split.
  - exists (task_cancel <$> tasks). split_and!; [done|by rewrite length_fmap|].
    intros i task Hi. rewrite list_lookup_fmap, Hi. reflexivity.
  - by rewrite (AsyncioRunner_stop_without_stopped _ _ _ _
                  Hlock1 Hrun1 Htasks1 Hstopped1).
Qed.

End RunnerMethods.

(** ** More of the code run on the small interpreter *)

Lemma translate_hierarchy_list_shape_witness :
  let items : list (value Demo.obj) :=
    [VInt 1; VDict [("x", VStr "y")]; Demo.widget_document] in
  translate_hierarchy (VList items) "root" [] []
  = (Ok (VList [VInt 1; VDict [("x", VStr "y")]; VObj (Demo.Widget 1 2 3)]), [])
  /\ exists translated,
      VList [VInt 1; VDict [("x", VStr "y")]; VObj (Demo.Widget 1 2 3)]
      = VList translated
      /\ length translated = length items
      /\ forall i item',
          translated !! i = Some item' ->
          exists item (w0 w1 : Demo.world),
            items !! i = Some item
            /\ translate_hierarchy item (where_index "root" i) [] w0
               = (Ok item', w1).
Proof.
  intros items. split; [reflexivity|].
  apply (translate_hierarchy_list_shape items "root" [] [] _ []). reflexivity.
Defined.

Lemma translate_hierarchy_dict_shape_witness :
  let pairs : list (string * value Demo.obj) :=
    [("widget", Demo.widget_document); ("port", VInt 80)] in
  dict_wf pairs
  /\ dict_has "__type__" pairs = false
  /\ translate_hierarchy (VDict pairs) "root" [] []
     = (Ok (VDict [("widget", VObj (Demo.Widget 1 2 3)); ("port", VInt 80)]), [])
  /\ exists translated,
      VDict [("widget", VObj (Demo.Widget 1 2 3)); ("port", VInt 80)]
      = VDict translated
      /\ dict_keys translated = dict_keys pairs
      /\ Forall2 (fun kv kv' =>
                   kv'.1 = kv.1
                   /\ exists w0 w1 : Demo.world,
                       translate_hierarchy kv.2 (where_key "root" kv.1) [] w0
                       = (Ok kv'.2, w1))
                 pairs translated.
Proof.
  intros pairs.
  assert (Hwf : dict_wf pairs) by by_computing.
  split; [exact Hwf|]. split; [reflexivity|]. split; [reflexivity|].
  apply (translate_hierarchy_dict_shape pairs "root" [] [] _ [] Hwf);
    reflexivity.
Defined.

Lemma translate_hierarchy_kwargs_unused_witness :
  let structure : value Demo.obj :=
    VDict [("widgets", VList [Demo.widget_document])] in
  (forall pairs, structure = VDict pairs -> dict_has "__type__" pairs = false)
  /\ translate_hierarchy structure "root" [("x", VInt 9)] ([] : Demo.world)
     = translate_hierarchy structure "root" [] [].
Proof.
  intros structure.
  assert (Hno : forall pairs, structure = VDict pairs ->
                              dict_has "__type__" pairs = false)
    by (intros pairs [= <-]; reflexivity).
  split; [exact Hno|].
  exact (translate_hierarchy_kwargs_unused structure "root" [("x", VInt 9)]
           [] Hno).
Defined.

Lemma translate_hierarchy_list_last_failure_witness :
  let bad (name : string) : value Demo.obj :=
    VDict [("__type__", VStr name)] in
  let err : exn Demo.obj :=
    ConfigurationError (WhatExn (ImportError "No module named 'nowhere'"))
      (Some "root[2]") in
  translate_elements "root" [VInt 2] 3 [] = (Ok [VInt 2], [])
  /\ translate_hierarchy (bad "nowhere.B") (where_index "root" 2) [] []
     = (Raise err, [])
  /\ translate_hierarchy
       (VList ([bad "elsewhere.A"; VInt 1] ++ bad "nowhere.B" :: [VInt 2]))
       "root" [] []
     = (Raise err, []).
Proof.
  intros bad err. split; [reflexivity|]. split; [reflexivity|].
  apply (translate_hierarchy_list_last_failure
           [bad "elsewhere.A"; VInt 1] (bad "nowhere.B") [VInt 2] "root" []
           [] [VInt 2] [] err []); reflexivity.
Defined.

Lemma translate_hierarchy_dict_first_failure_witness :
  let bad (name : string) : value Demo.obj :=
    VDict [("__type__", VStr name)] in
  let err : exn Demo.obj :=
    ConfigurationError (WhatExn (ImportError "No module named 'nowhere'"))
      (Some "root.second") in
  translate_values "root" [("first", VInt 1)] [] = (Ok [("first", VInt 1)], [])
  /\ translate_hierarchy (bad "nowhere.B") (where_key "root" "second") [] []
     = (Raise err, [])
  /\ translate_hierarchy
       (VDict ([("first", VInt 1)]
               ++ ("second", bad "nowhere.B") :: [("third", bad "elsewhere.C")]))
       "root" [] []
     = (Raise err, []).
Proof.
  intros bad err. split; [reflexivity|]. split; [reflexivity|].
  apply (translate_hierarchy_dict_first_failure
           [("first", VInt 1)] "second" (bad "nowhere.B")
           [("third", bad "elsewhere.C")] "root" []
           [] [("first", VInt 1)] [] err []); reflexivity.
Defined.

Lemma translate_hierarchy_unknown_module_witness :
  let pairs : list (string * value Demo.obj) :=
    [("__type__", VStr "nowhere.Thing"); ("x", VInt 3)] in
  translate_values "root.a" pairs [] = (Ok pairs, [])
  /\ dict_get "__type__" (dict_merge pairs []) = Some (VStr "nowhere.Thing")
  /\ py_import "nowhere.Thing" []
     = (Raise (ImportError "No module named 'nowhere.Thing'"), [])
  /\ sys_modules ([] : Demo.world) (hd EmptyString (PyStr.split "." "nowhere.Thing"))
     = None
  /\ translate_hierarchy (VDict pairs) "root.a" [] []
     = (Raise (ConfigurationError
                 (WhatExn (ImportError "No module named 'nowhere'"))
                 (Some "root.a")),
        []).
Proof.
  intros pairs. split; [reflexivity|]. split; [reflexivity|].
  split; [reflexivity|]. split; [reflexivity|].
  exact (translate_hierarchy_unknown_module pairs "root.a" [] [] pairs []
           "nowhere.Thing" "No module named 'nowhere.Thing'" []
           eq_refl eq_refl eq_refl eq_refl eq_refl eq_refl).
Defined.

Lemma translate_hierarchy_missing_attribute_witness :
  let pairs : list (string * value Demo.obj) :=
    [("__type__", VStr "pkg.Gadget")] in
  translate_values "root.a" pairs [] = (Ok pairs, [])
  /\ py_import "pkg.Gadget" []
     = (Raise (ImportError "No module named 'pkg.Gadget'"), [])
  /\ sys_modules ([] : Demo.world) (hd EmptyString (PyStr.split "." "pkg.Gadget"))
     = Some (VObj Demo.PkgModule)
  /\ tl (PyStr.split "." "pkg.Gadget") = [] ++ "Gadget" :: []
  /\ py_getattr (VObj Demo.PkgModule) "Gadget" []
     = (Raise (AttributeError "module 'pkg' has no attribute 'Gadget'"), [])
  /\ translate_hierarchy (VDict pairs) "root.a" [] []
     = (Raise (ConfigurationError
                 (WhatStr "no such object 'pkg.Gadget': ")
                 (Some "root.a")),
        []).
Proof.
  intros pairs. split; [reflexivity|]. split; [reflexivity|].
  split; [reflexivity|]. split; [reflexivity|]. split; [reflexivity|].
  exact (translate_hierarchy_missing_attribute pairs "root.a" [] [] pairs []
           "pkg.Gadget" "No module named 'pkg.Gadget'" []
           (VObj Demo.PkgModule) [] "Gadget" [] (VObj Demo.PkgModule) []
           "module 'pkg' has no attribute 'Gadget'" []
           eq_refl eq_refl eq_refl eq_refl eq_refl eq_refl eq_refl
           (attribute_path_nil _ _) eq_refl).
Defined.

Lemma translate_hierarchy_type_not_str_witness :
  let pairs : list (string * value Demo.obj) :=
    [("__type__", VInt 5); ("x", VInt 3)] in
  translate_values "root.a" pairs [] = (Ok pairs, [])
  /\ dict_get "__type__" (dict_merge pairs []) = Some (VInt 5)
  /\ translate_hierarchy (VDict pairs) "root.a" [] []
     = (Raise (ConfigurationError
                 (WhatExn (AttributeError "object has no attribute 'split'"))
                 (Some "root.a")),
        []).
Proof.
  intros pairs. split; [reflexivity|]. split; [reflexivity|].
  exact (translate_hierarchy_type_not_str pairs "root.a" [] [] pairs []
           (VInt 5) eq_refl eq_refl eq_refl eq_refl I).
Defined.

Lemma translate_hierarchy_reserved_kwargs_witness :
  let pairs : list (string * value Demo.obj) :=
    [("__type__", VStr "pkg.Widget"); ("x", VInt 3)] in
  let construct_kwargs : list (string * value Demo.obj) :=
    [("__args__", VList [VInt 1; VInt 2])] in
  translate_values "root" pairs [] = (Ok pairs, [])
  /\ dict_has "__type__" pairs = true
  /\ dict_has "mapping" construct_kwargs = false
  /\ dict_has "__type__" construct_kwargs || dict_has "__args__" construct_kwargs
     = true
  /\ translate_hierarchy (VDict pairs) "root" construct_kwargs []
     = (Raise (ConfigurationError (WhatExn (AssertionError "")) (Some "root")),
        []).
Proof.
  intros pairs construct_kwargs.
  split; [reflexivity|]. split; [reflexivity|]. split; [reflexivity|].
  split; [reflexivity|].
  exact (translate_hierarchy_reserved_kwargs pairs "root" construct_kwargs []
           pairs [] eq_refl eq_refl eq_refl eq_refl).
Defined.

Lemma SectionPlugin_load_recognized_witness :
  let entry := Demo.entry_point ["required"; "before = x"; "after=y"; "after= z "] in
  load entry [] = (Ok (Demo.record_section "demo"), [])
  /\ Forall recognized (default [] (extras entry))
  /\ SectionPlugin_load 7 entry []
     = (Ok {| id_ := 7;
              section := "demo";
              digest := Demo.record_section "demo";
              required := bool_decide ("required" ∈ default [] (extras entry));
              before := option_values "before" (default [] (extras entry));
              after := option_values "after" (default [] (extras entry)) |},
        [])
  /\ bool_decide ("required" ∈ default [] (extras entry)) = true
  /\ option_values "before" (default [] (extras entry)) = {[ "x" ]}
  /\ option_values "after" (default [] (extras entry)) = {[ "y"; "z" ]}.
Proof.
  intros entry.
  assert (Hrec : Forall recognized (default [] (extras entry)))
    by by_computing.
  split; [reflexivity|]. split; [exact Hrec|]. split.
  - exact (SectionPlugin_load_recognized 7 entry (Demo.record_section "demo")
             [] [] eq_refl Hrec).
  - split; [reflexivity|]. split; by_computing.
Defined.

Lemma SectionPlugin_load_same_options_witness :
  let given := ["required"; "after=a"] in
  let given' := ["after=a"; "required"; "after=a"] in
  (forall option, option ∈ given <-> option ∈ given')
  /\ Forall recognized given
  /\ SectionPlugin_load 7 (Demo.entry_point given) []
     = SectionPlugin_load 7 (Demo.entry_point given') [].
Proof.
  intros given given'.
  assert (Hsame : forall option, option ∈ given <-> option ∈ given').
  { intros option. unfold given, given'.
    rewrite !elem_of_cons, !elem_of_nil. tauto. }
  assert (Hrec : Forall recognized given) by by_computing.
  split; [exact Hsame|]. split; [exact Hrec|].
  exact (SectionPlugin_load_same_options 7 (Demo.entry_point given)
           (Demo.entry_point given') given given' []
           eq_refl eq_refl eq_refl eq_refl Hsame Hrec).
Defined.

Lemma load_configuration_missing_section_witness :
  let config_data : list (string * value Demo.obj) := [("a", VInt 1)] in
  logging_applied config_data [] []
  /\ unmatched_sections (dict_del "logging" config_data)
       ([Demo.plugin_a] ++ Demo.plugin_c :: [Demo.plugin_b]) = ∅
  /\ digest_sections (dict_del "logging" config_data) [Demo.plugin_a] [] []
     = (Ok [], ["a"])
  /\ load_configuration config_data
       ([Demo.plugin_a] ++ Demo.plugin_c :: [Demo.plugin_b]) []
     = (Raise (ConfigurationError (WhatStr "missing section 'c'") (Some "root")),
        [("a", VInt 1)], ["a"]).
Proof.
  intros config_data.
  assert (Hnone : unmatched_sections (dict_del "logging" config_data)
                    ([Demo.plugin_a] ++ Demo.plugin_c :: [Demo.plugin_b]) = ∅)
    by by_computing.
  split; [reflexivity|]. split; [exact Hnone|]. split; [reflexivity|].
  exact (load_configuration_missing_section config_data [Demo.plugin_a]
           Demo.plugin_c [Demo.plugin_b] [] [] [] ["a"]
           eq_refl Hnone eq_refl eq_refl eq_refl).
Defined.

Lemma load_configuration_absent_optional_witness :
  let config_data : list (string * value Demo.obj) :=
    [("logging", VDict []); ("a", VInt 1)] in
  ("b" ∉ dict_keys (dict_del "logging" config_data))
  /\ load_configuration config_data
       ([Demo.plugin_a] ++ Demo.plugin_b :: []) []
     = load_configuration config_data ([Demo.plugin_a] ++ []) [].
Proof.
  intros config_data.
  assert (Habsent : section Demo.plugin_b
                    ∉ dict_keys (dict_del "logging" config_data))
    by by_computing.
  split; [exact Habsent|].
  exact (load_configuration_absent_optional config_data [Demo.plugin_a]
           Demo.plugin_b [] [] eq_refl Habsent).
Defined.

Lemma load_configuration_digest_raises_witness :
  let config_data : list (string * value Demo.obj) :=
    [("a", VInt 1); ("d", VInt 2); ("b", VInt 3)] in
  logging_applied config_data [] []
  /\ unmatched_sections (dict_del "logging" config_data)
       ([Demo.plugin_a] ++ Demo.plugin_d :: [Demo.plugin_b]) = ∅
  /\ digest_sections (dict_del "logging" config_data) [Demo.plugin_a] [] []
     = (Ok [], ["a"])
  /\ digest Demo.plugin_d (VInt 2) ["a"]
     = (Raise (ValueError "bad section"), ["failed"; "a"])
  /\ load_configuration config_data
       ([Demo.plugin_a] ++ Demo.plugin_d :: [Demo.plugin_b]) []
     = (Raise (ValueError "bad section"), config_data, ["failed"; "a"]).
Proof.
  intros config_data.
  assert (Hnone : unmatched_sections (dict_del "logging" config_data)
                    ([Demo.plugin_a] ++ Demo.plugin_d :: [Demo.plugin_b]) = ∅)
    by by_computing.
  split; [reflexivity|]. split; [exact Hnone|]. split; [reflexivity|].
  split; [reflexivity|].
  exact (load_configuration_digest_raises config_data [Demo.plugin_a]
           Demo.plugin_d [Demo.plugin_b] [] [] [] ["a"] (VInt 2)
           (ValueError "bad section") ["failed"; "a"]
           eq_refl Hnone eq_refl eq_refl eq_refl).
Defined.

Lemma load_configuration_content_witness :
  let config_data : list (string * value Demo.obj) :=
    [("e", VInt 7); ("a", VInt 1)] in
  let plugins := [Demo.plugin_a; Demo.plugin_b; Demo.plugin_e] in
  load_configuration config_data plugins []
  = (Ok [(5, VInt 7)], config_data, ["kept"; "a"])
  /\ dict_wf [(5, VInt 7 : value Demo.obj)]
  /\ Forall (fun entry : nat * value Demo.obj =>
               entry.2 <> VNone
               /\ exists plugin,
                   plugin ∈ plugins /\ id_ plugin = entry.1
                   /\ is_Some (dict_get (section plugin) config_data))
            [(5, VInt 7)].
Proof.
  intros config_data plugins. split; [reflexivity|].
  exact (load_configuration_content config_data plugins [] [(5, VInt 7)]
           config_data ["kept"; "a"] eq_refl).
Defined.

Lemma load_configuration_logging_raises_witness :
  let config_data : list (string * value Demo.obj) :=
    [("a", VInt 1); ("logging", VList []); ("zzz", VInt 2)] in
  dict_get "logging" config_data = Some (VList [])
  /\ configure_logging (VList []) ([] : Demo.world)
     = (Raise (AttributeError "object has no attribute 'get'"), [])
  /\ load_configuration config_data [Demo.plugin_a] []
     = (Raise (AttributeError "object has no attribute 'get'"),
        [("a", VInt 1); ("zzz", VInt 2)], []).
Proof.
  intros config_data. split; [reflexivity|]. split; [reflexivity|].
  exact (load_configuration_logging_raises config_data [Demo.plugin_a] []
           (VList []) (AttributeError "object has no attribute 'get'") []
           eq_refl eq_refl).
Defined.

Lemma BaseRunner_run_outcome_witness :
  dict_get "_lock" BaseRunner_init = Some ALock
  /\ dict_get "running" BaseRunner_init = Some (AEvent false)
  /\ BaseRunner__run (Obj:=Demo.obj)
       (dict_set "running" (AEvent true) BaseRunner_init)
     = (Raises NotImplementedError,
        dict_set "running" (AEvent true) BaseRunner_init)
  /\ run (Obj:=Demo.obj) BaseRunner__run BaseRunner_init
     = (Raises NotImplementedError, BaseRunner_init).
Proof.
  split; [reflexivity|]. split; [reflexivity|]. split; [reflexivity|].
  assert (Hr : Raises NotImplementedError <> (Blocks : @outcome Demo.obj unit))
    by discriminate.
  exact (BaseRunner_run_outcome (Obj:=Demo.obj) BaseRunner_init
           BaseRunner__run ALock false (Raises NotImplementedError)
           (dict_set "running" (AEvent true) BaseRunner_init) true
           eq_refl eq_refl eq_refl Hr eq_refl).
Defined.

Lemma AsyncioRunner_register_payloads_witness :
  dict_get "_payloads" AsyncioRunner_init = Some (AList [])
  /\ fold_left (fun self payload =>
                  (AsyncioRunner_register_payload (Obj:=Demo.obj) payload self).2)
       [11; 12; 13] AsyncioRunner_init
     = dict_set "_payloads"
         (AList [PartialRaiseReturn 11; PartialRaiseReturn 12;
                 PartialRaiseReturn 13])
         AsyncioRunner_init.
Proof.
  split; [reflexivity|].
  exact (proj1 (AsyncioRunner_register_payloads (Obj:=Demo.obj)
                  AsyncioRunner_init [] [11; 12; 13] eq_refl)).
Defined.

Lemma AsyncioRunner_stop_again_witness :
  let finished : Task :=
    {| task_of := PartialRaiseReturn 1; task_done := true;
       task_must_cancel := false |} in
  let pending : Task :=
    {| task_of := Payload 2; task_done := false; task_must_cancel := false |} in
  let self := asyncio_runner [] [finished; pending] true in
  dict_get "_lock" self = Some ALock
  /\ dict_get "running" self = Some (AEvent true)
  /\ dict_get "_tasks" self = Some (ASet [finished; pending])
  /\ dict_get "_stopped" self = None
  /\ dict_get "_tasks" (AsyncioRunner_stop (Obj:=Demo.obj) self).2
     = Some (ASet [finished;
                   {| task_of := Payload 2; task_done := false;
                      task_must_cancel := true |}])
  /\ (AsyncioRunner_stop (Obj:=Demo.obj)
        (AsyncioRunner_stop (Obj:=Demo.obj) self).2).1
     = Raises (AttributeError "object has no attribute '_stopped'").
Proof.
  intros finished pending self.
  split; [reflexivity|]. split; [reflexivity|]. split; [reflexivity|].
  split; [reflexivity|]. split; [reflexivity|].
  exact (proj2 (AsyncioRunner_stop_again (Obj:=Demo.obj) self ALock true
                  [finished; pending] eq_refl eq_refl eq_refl eq_refl)).
Defined.

(** ** Which failure [translate_hierarchy] reports, and where *)
Section ErrorAttribution.
Context {Obj World : Type} `{!Interpreter Obj World}.
Local Abbreviation value := (value Obj).
Local Abbreviation exn := (exn Obj).
Local Abbreviation M := (M Obj World).
Local Open Scope py_scope.
Implicit Types (w : World) (items : list value)
  (pairs : list (string * value)).

Lemma reached_node_at (structure : value) where_ kwargs w (node : value)
    where' kwargs' w0 :
  reached structure where_ kwargs w node where' kwargs' w0 ->
  node_at structure where_ node where'.
Proof.
  induction 1 as [structure where_ kwargs w
                 |pairs1 key child pairs2 where_ kwargs w translated w1
                    node where' kwargs' w0 _ _ IH
                 |items1 item items2 where_ kwargs w translated w1
                    node where' kwargs' w0 _ _ IH].
  - constructor.
  - eapply node_key; [|exact IH]. apply elem_of_app. right. left.
  - eapply node_index; [|exact IH].
    by rewrite lookup_app_r, Nat.sub_diag by lia.
Qed.

Lemma translate_values_raise_from where_ pairs1 key (child : value) pairs2
    w translated w1 err w' :
  translate_values where_ pairs1 w = (Ok translated, w1) ->
  translate_hierarchy child (where_key where_ key) [] w1 = (Raise err, w') ->
  translate_values where_ (pairs1 ++ (key, child) :: pairs2) w
  = (Raise err, w').
Proof.
  revert w translated.
  induction pairs1 as [|[k v] pairs1 IH]; intros w translated Hbefore Hchild.
  - injection Hbefore as _ ->. simpl. unfold bind. by rewrite Hchild.
  - change (((k, v) :: pairs1) ++ (key, child) :: pairs2)
      with ((k, v) :: (pairs1 ++ (key, child) :: pairs2)).
    rewrite translate_values_cons in Hbefore |- *.
    unfold bind, ret in Hbefore |- *.
    destruct (translate_hierarchy v (where_key where_ k) [] w)
      as [[v'|e] w3]; [|discriminate].
    destruct (translate_values where_ pairs1 w3) as [[rest|e] w4] eqn:Hrest;
      [|discriminate].
    injection Hbefore as _ ->. by rewrite (IH _ _ Hrest Hchild).
Qed.

Lemma translate_elements_raise_from where_ items1 (item : value) items2 index
    w translated w1 err w' :
  translate_elements where_ items2 (index + S (length items1)) w
  = (Ok translated, w1) ->
  translate_hierarchy item (where_index where_ (index + length items1)) [] w1
  = (Raise err, w') ->
  translate_elements where_ (items1 ++ item :: items2) index w
  = (Raise err, w').
Proof.
  intros Hafter Hitem. rewrite translate_elements_app. unfold bind at 1.
  rewrite translate_elements_cons. unfold bind at 1.
  replace (S (index + length items1)) with (index + S (length items1)) by lia.
  rewrite Hafter. unfold bind at 1. by rewrite Hitem.
Qed.

(** What the translation of an element that is reached raises comes out
    of the whole translation, as it is. *)
Lemma reached_raises (structure : value) where_ kwargs w (node : value)
    where' kwargs' w0 err w' :
  reached structure where_ kwargs w node where' kwargs' w0 ->
  translate_hierarchy node where' kwargs' w0 = (Raise err, w') ->
  translate_hierarchy structure where_ kwargs w = (Raise err, w').
Proof.
  induction 1 as [structure where_ kwargs w
                 |pairs1 key child pairs2 where_ kwargs w translated w1
                    node where' kwargs' w0 Hbefore _ IH
                 |items1 item items2 where_ kwargs w translated w1
                    node where' kwargs' w0 Hafter _ IH]; intros Hnode.
  - exact Hnode.
  - specialize (IH Hnode).
    rewrite translate_hierarchy_dict. unfold reraise, bind.
    rewrite (translate_values_raise_from _ _ _ _ _ _ _ _ _ _ Hbefore IH).
    by rewrite (translate_hierarchy_raise_kept _ _ _ _ _ _ where_ IH).
  - specialize (IH Hnode).
    rewrite translate_hierarchy_list. unfold reraise, bind.
    rewrite (translate_elements_raise_from _ items1 item items2 0 _ _ _ _ _
               Hafter IH).
    by rewrite (translate_hierarchy_raise_kept _ _ _ _ _ _ where_ IH).
Qed.

Lemma translate_values_raise_split where_ pairs w err w' :
  translate_values where_ pairs w = (Raise err, w') ->
  exists pairs1 key child pairs2 translated w1,
    pairs = pairs1 ++ (key, child) :: pairs2
    /\ translate_values where_ pairs1 w = (Ok translated, w1)
    /\ translate_hierarchy child (where_key where_ key) [] w1 = (Raise err, w').
Proof.
  revert w. induction pairs as [|[key val] pairs IH]; intros w Hrun.
  - discriminate.
  - rewrite translate_values_cons in Hrun. unfold bind in Hrun.
    destruct (translate_hierarchy val (where_key where_ key) [] w)
      as [[val'|e] w1] eqn:Hval.
    + destruct (translate_values where_ pairs w1) as [[rest'|e] w2] eqn:Hrest;
        [discriminate|].
      injection Hrun as -> ->.
      destruct (IH _ Hrest) as (p1 & k & c & p2 & tr & w3 & -> & Hp1 & Hc).
      exists ((key, val) :: p1), k, c, p2, ((key, val') :: tr), w3.
      split_and!; [done| |done].
      rewrite translate_values_cons. unfold bind, ret.
      by rewrite Hval, Hp1.
    + injection Hrun as -> ->.
      exists [], key, val, pairs, [], w. by split_and!.
Qed.

Lemma translate_elements_raise_split where_ items index w err w' :
  translate_elements where_ items index w = (Raise err, w') ->
  exists items1 item items2 translated w1,
    items = items1 ++ item :: items2
    /\ translate_elements where_ items2 (index + S (length items1)) w
       = (Ok translated, w1)
    /\ translate_hierarchy item (where_index where_ (index + length items1))
         [] w1
       = (Raise err, w').
Proof.
  revert index w. induction items as [|item items IH]; intros index w Hrun.
  - discriminate.
  - rewrite translate_elements_cons in Hrun. unfold bind in Hrun.
    destruct (translate_elements where_ items (S index) w)
      as [[rest'|e] w1] eqn:Hrest.
    + destruct (translate_hierarchy item (where_index where_ index) [] w1)
        as [[item'|e] w2] eqn:Hitem; [discriminate|].
      injection Hrun as -> ->.
      exists [], item, items, rest', w1. simpl.
      rewrite Nat.add_0_r, Nat.add_1_r. by split_and!.
    + injection Hrun as -> ->.
      destruct (IH _ _ Hrest) as (i1 & it & i2 & tr & w3 & -> & Hi2 & Hit).
      exists (item :: i1), it, i2, tr, w3. simpl.
      replace (index + S (S (length i1))) with (S index + S (length i1))
        by lia.
      replace (index + S (length i1)) with (S index + length i1) by lia.
      by split_and!.
Qed.

(** Every error of [translate_hierarchy] comes from a mapping that is
    reached and whose [construct] fails. *)
Lemma translate_hierarchy_raise_reached (structure : value) where_
    construct_kwargs w err w' :
  translate_hierarchy structure where_ construct_kwargs w = (Raise err, w') ->
  exists pairs where' kwargs w0 translated w1 err0,
    reached structure where_ construct_kwargs w (VDict pairs) where' kwargs w0
    /\ translate_values where' pairs w0 = (Ok translated, w1)
    /\ dict_has "__type__" (dict_of_items translated) = true
    /\ construct (dict_of_items translated) kwargs w1 = (Raise err0, w')
    /\ err = attribute where' err0.
Proof.
  revert where_ construct_kwargs w err w'.
  induction structure as [| b | z | bits | s | items IH | pairs IH | o]
    using value_tree_ind; intros where_ construct_kwargs w err w' Hrun;
    try discriminate.
  - rewrite translate_hierarchy_list in Hrun. unfold reraise, bind in Hrun.
    destruct (translate_elements where_ items 0 w) as [[translated|e] w1] eqn:Hel;
      [discriminate|].
    injection Hrun as <- ->.
    destruct (translate_elements_raise_split _ _ _ _ _ _ Hel)
      as (i1 & item & i2 & tr & w0 & -> & Hafter & Hitem).
    simpl in Hafter, Hitem.
    rewrite Forall_forall in IH.
    assert (Hin : item ∈ i1 ++ item :: i2) by (apply elem_of_app; right; left).
    destruct (IH _ Hin _ _ _ _ _ Hitem)
      as (ps & q & kw & wa & trs & wb & e0 & Hreach & Hvals & Hty & Hcon & ->).
    exists ps, q, kw, wa, trs, wb, e0.
    rewrite attribute_attribute. split_and!; try done.
    eapply reached_index; eauto.
  - rewrite translate_hierarchy_dict in Hrun. unfold reraise, bind in Hrun.
    destruct (translate_values where_ pairs w) as [[translated|e] w1] eqn:Hvals.
    + destruct (dict_has "__type__" (dict_of_items translated)) eqn:Hty;
        [|discriminate].
      destruct (construct (dict_of_items translated) construct_kwargs w1)
        as [[obj|e0] w2] eqn:Hcon; [discriminate|].
      injection Hrun as <- ->.
      exists pairs, where_, construct_kwargs, w, translated, w1, e0.
      split_and!; try done. constructor.
    + injection Hrun as <- ->.
      destruct (translate_values_raise_split _ _ _ _ _ Hvals)
        as (p1 & key & child & p2 & tr & w0 & -> & Hbefore & Hchild).
      rewrite Forall_forall in IH.
      assert (Hin : (key, child) ∈ p1 ++ (key, child) :: p2)
        by (apply elem_of_app; right; left).
      destruct (IH _ Hin _ _ _ _ _ Hchild)
        as (ps & q & kw & wa & trs & wb & e0 & Hreach & Hvals' & Hty & Hcon
            & ->).
      exists ps, q, kw, wa, trs, wb, e0.
      rewrite attribute_attribute. split_and!; try done.
      eapply reached_key; eauto.
Qed.

(** C5: [translate_hierarchy] raises an error exactly when it reaches a
    mapping of the tree, all of whose values translate, for which
    [construct] fails; and then the error is that failure as the frame
    of that very mapping surfaces it: a [ConfigurationError] whose
    [where] is the diagnostic path of the mapping when what [construct]
    raised has no [where], and that exception unchanged when it is a
    [ConfigurationError] that has one.  The frames around the mapping
    pass the error on as it is. *)
Theorem translate_hierarchy_error_where (structure : value) where_
    construct_kwargs w err w' :
  translate_hierarchy structure where_ construct_kwargs w = (Raise err, w')
  <-> exists pairs where' kwargs w0 translated w1 err0,
      reached structure where_ construct_kwargs w (VDict pairs) where' kwargs w0
      /\ node_at structure where_ (VDict pairs) where'
      /\ translate_values where' pairs w0 = (Ok translated, w1)
      /\ dict_has "__type__" (dict_of_items translated) = true
      /\ construct (dict_of_items translated) kwargs w1 = (Raise err0, w')
      /\ err = attribute where' err0
      /\ (exn_where err0 = None ->
          exists what, err = ConfigurationError what (Some where'))
      /\ (forall p, exn_where err0 = Some p -> err = err0).
Proof.
  split.
  - intros Hrun.
    destruct (translate_hierarchy_raise_reached _ _ _ _ _ _ Hrun)
      as (ps & q & kw & w0 & tr & w1 & e0 & Hreach & Hvals & Hty & Hcon & ->).
    exists ps, q, kw, w0, tr, w1, e0. split_and!; try done.
    + by eapply reached_node_at.
    + apply attribute_fresh.
    + intros p Hp. by eapply attribute_kept.
  - intros (ps & q & kw & w0 & tr & w1 & e0 & Hreach & _ & Hvals & Hty & Hcon
            & -> & _ & _).
    eapply reached_raises; [exact Hreach|].
    rewrite (translate_hierarchy_dict_construct _ _ _ _ _ _ Hvals Hty).
    unfold reraise. by rewrite Hcon.
Qed.

End ErrorAttribution.

Lemma translate_hierarchy_error_where_witness :
  let name : value Demo.obj := VDict [("__type__", VStr "nowhere.Thing")] in
  let third : value Demo.obj := VDict [("name", name)] in
  let services : value Demo.obj :=
    VList [VDict [("name", VStr "first")]; VDict [("name", VStr "second")];
           third] in
  let err0 : exn Demo.obj := ImportError "No module named 'nowhere'" in
  let err : exn Demo.obj :=
    ConfigurationError (WhatExn err0) (Some "root.services[2].name") in
  Demo.services_document = VDict [("services", services)]
  /\ reached Demo.services_document "root" [] ([] : Demo.world)
       name "root.services[2].name" [] []
  /\ construct (dict_of_items [("__type__", VStr "nowhere.Thing")]) [] []
     = (Raise err0, [])
  /\ translate_hierarchy Demo.services_document "root" [] [] = (Raise err, [])
  /\ err = attribute "root.services[2].name" err0.
Proof.
  intros name third services err0 err.
  assert (Hreach : reached Demo.services_document "root" [] ([] : Demo.world)
                     name "root.services[2].name" [] []).
  { apply (reached_key [] "services" services [] "root" [] [] [] []);
      [reflexivity|].
    apply (reached_index
             [VDict [("name", VStr "first")]; VDict [("name", VStr "second")]]
             third [] "root.services" [] [] [] []); [reflexivity|].
    apply (reached_key [] "name" name [] "root.services[2]" [] [] [] []);
      [reflexivity|].
    apply reached_here. }
  split; [reflexivity|]. split; [exact Hreach|]. split; [reflexivity|].
  split; [|reflexivity].
  apply (proj2 (translate_hierarchy_error_where Demo.services_document "root"
                  [] [] err [])).
  exists [("__type__", VStr "nowhere.Thing")], "root.services[2].name",
    [], [], [("__type__", VStr "nowhere.Thing")], [], err0.
  split; [exact Hreach|].
  split; [exact (reached_node_at _ _ _ _ _ _ _ _ Hreach)|].
  split; [reflexivity|]. split; [reflexivity|]. split; [reflexivity|].
  split; [reflexivity|]. split.
  - intros _. by eexists.
  - intros p Hp. discriminate Hp.
Defined.
